(** * datastore-emulator-go: the emulator supervisor

    A shallow embedding of the two versions of the package [emulator]
    (src/emulator.go, which asks the emulator for its coordinates with
    [env-init], and src/unnamed/part_000, which starts it on a fixed host and
    project), and the properties of its startup, discovery and teardown
    protocol.

    Go code that mutates the receiver [*Emulator], the process environment and
    talks to the outside (HTTP, child processes, timers) is written in a small
    state monad over the handle and a [World]; everything the outside decides
    is read from an [Outside] record, so each function is executable. *)

From Stdlib Require Import ZArith String Ascii List Lia.
From stdpp Require Import gmap strings.
Import ListNotations.

Local Open Scope string_scope.
Local Open Scope list_scope.
Local Open Scope Z_scope.

(** ** Go library functions used by the package *)

Module strings.

(** [strings.Split(s, sep)] for a non-empty [sep]: the substrings of [s]
    between the non-overlapping occurrences of [sep], leftmost first.
    [skip] counts the bytes of a separator still to be passed over and [cur]
    is the piece read so far. *)
Fixpoint SplitFrom (sep : string) (skip : nat) (cur s : string) : list string :=
  match s with
  | EmptyString => [cur]
  | String c s' =>
      match skip with
      | S k => SplitFrom sep k cur s'
      | O =>
          if String.prefix sep s
          then cur :: SplitFrom sep (String.length sep - 1) EmptyString s'
          else SplitFrom sep O (cur +:+ String c EmptyString) s'
      end
  end.

Definition Split (s sep : string) : list string :=
  SplitFrom sep O EmptyString s.

End strings.

Module time.
(** [time.Duration] counts nanoseconds. *)
Definition Millisecond : Z := 1000000.
Definition Second : Z := 1000 * Millisecond.
End time.

(** ** Data model *)

(** [type Emulator struct]; [stopOnClose] is the ownership flag. *)
Record Emulator := mkEmulator {
  Host : string;
  ProjectID : string;
  stopOnClose : bool
}.

Inductive Method := MethodGet | MethodPost.

(** The [error] values the package can return. *)
Inductive error :=
| ExecError (code : nat)        (* os/exec: binary missing, start or exit failure *)
| ScanError                     (* bufio.Scanner.Err *)
| UrlError                      (* http.NewRequestWithContext *)
| TransportError                (* http.Client.Do, including the per-request timeout *)
| StatusCodeError (code : Z)    (* fmt.Errorf("status code error: %d") *)
| DeadlineExceeded.             (* context.DeadlineExceeded *)

(** What [http.Client.Do] gives back, and how long it took. *)
Record RoundTrip := mkRoundTrip {
  resp : error + Z;             (* transport error, or the status code *)
  took : Z
}.

(** What [cmd.Run] with a captured stdout gives back: the lines
    [bufio.Scanner] yields, and the error the scanner stopped on, if any. *)
Inductive Output :=
| RunFailed (err : error)
| Printed (lines : list string) (scanErr : option error).

(** Effects on the outside, in the order they happened. *)
Inductive Event :=
| EvStart (args : list string) (err : option error)    (* exec.Cmd.Start *)
| EvRun (args : list string)                           (* exec.Cmd.Run *)
| EvRequest (method : Method) (url : string) (r : error + Z)
| EvSetenv (key value : string)
| EvUnsetenv (key : string)
| EvTick                                               (* <-t.C taken *)
| EvDone.                                              (* <-ctx.Done() taken *)

(** The process-wide state: environment variables, the monotonic clock (ns),
    how many requests, commands and contested selects came before, and the
    log of effects. *)
Record World := mkWorld {
  environ : gmap string string;
  clock : Z;
  nreq : nat;
  nexec : nat;
  nsel : nat;
  log : list Event
}.

(** Everything the outside decides.  The n-th request, command or contested
    select of a run gets its answer from the index n, so an answer may depend
    on everything that happened before. *)
Record Outside := mkOutside {
  newRequest : Method -> string -> option error;
  roundTrip : nat -> Method -> string -> RoundTrip;
  cmdStart : nat -> list string -> option error;
  cmdRun : nat -> list string -> Output;
  selectTick : nat -> bool      (* both channels ready: true takes the tick *)
}.

(** ** The monad of methods on [*Emulator] *)

Inductive Res (A : Type) :=
| Ret (a : A) (e : Emulator) (w : World)
| Panic (msg : string) (e : Emulator) (w : World)   (* run-time panic *)
| Diverge.                                          (* fuel exhausted *)
Arguments Ret {A} a e w.
Arguments Panic {A} msg e w.
Arguments Diverge {A}.

Definition M (A : Type) : Type := Emulator -> World -> Res A.

Definition ret {A} (a : A) : M A := fun e w => Ret a e w.

Definition bind {A B} (m : M A) (k : A -> M B) : M B := fun e w =>
  match m e w with
  | Ret a e' w' => k a e' w'
  | Panic msg e' w' => Panic msg e' w'
  | Diverge => Diverge
  end.

Definition panic {A} (msg : string) : M A := fun e w => Panic msg e w.

Declare Scope go_scope.
Delimit Scope go_scope with go.
Notation "'let*' x ':=' m 'in' k" := (bind m (fun x => k))
  (at level 10, x name, m at level 100, k at level 200) : go_scope.
Notation "m ';;;' k" := (bind m (fun _ => k))
  (at level 100, k at level 200, right associativity) : go_scope.
Local Open Scope go_scope.

(** *** Receiver fields *)

Definition getHost : M string := fun e w => Ret (Host e) e w.
Definition setHost (h : string) : M unit := fun e w =>
  Ret tt (mkEmulator h (ProjectID e) (stopOnClose e)) w.
Definition setProjectID (p : string) : M unit := fun e w =>
  Ret tt (mkEmulator (Host e) p (stopOnClose e)) w.
Definition getStopOnClose : M bool := fun e w => Ret (stopOnClose e) e w.
Definition setStopOnClose (b : bool) : M unit := fun e w =>
  Ret tt (mkEmulator (Host e) (ProjectID e) b) w.

(** *** World updates *)

Definition emit (ev : Event) (w : World) : World :=
  mkWorld (environ w) (clock w) (nreq w) (nexec w) (nsel w) (log w ++ [ev]).
Definition withEnviron (m : gmap string string) (w : World) : World :=
  mkWorld m (clock w) (nreq w) (nexec w) (nsel w) (log w).
Definition withClock (t : Z) (w : World) : World :=
  mkWorld (environ w) t (nreq w) (nexec w) (nsel w) (log w).
Definition nextReq (w : World) : World :=
  mkWorld (environ w) (clock w) (S (nreq w)) (nexec w) (nsel w) (log w).
Definition nextExec (w : World) : World :=
  mkWorld (environ w) (clock w) (nreq w) (S (nexec w)) (nsel w) (log w).
Definition nextSel (w : World) : World :=
  mkWorld (environ w) (clock w) (nreq w) (nexec w) (S (nsel w)) (log w).

Module os.

Fixpoint hasByte (c : ascii) (s : string) : bool :=
  match s with
  | EmptyString => false
  | String c' s' => if Ascii.eqb c c' then true else hasByte c s'
  end.

Definition NUL : ascii := Ascii.zero.

(** [os.Getenv]: the value, or the empty string when unset. *)
Definition lookupEnv (w : World) (key : string) : string :=
  default EmptyString (environ w !! key).

Definition Getenv (key : string) : M string := fun e w =>
  Ret (lookupEnv w key) e w.

(** [os.Setenv] (Unix): EINVAL, and nothing set, for an empty key, a key
    with '=' or NUL, or a value with NUL.  The package drops the error. *)
Definition validSetenv (key value : string) : bool :=
  negb (String.eqb key EmptyString)
  && negb (hasByte "="%char key) && negb (hasByte NUL key)
  && negb (hasByte NUL value).

Definition Setenv (key value : string) : M unit := fun e w =>
  if validSetenv key value
  then Ret tt e (emit (EvSetenv key value)
                   (withEnviron (<[key := value]> (environ w)) w))
  else Ret tt e w.

Definition Unsetenv (key : string) : M unit := fun e w =>
  Ret tt e (emit (EvUnsetenv key) (withEnviron (delete key (environ w)) w)).

End os.

(** ** Code shared by both versions of the package *)

Definition pollingRate : Z := 200 * time.Millisecond.
Definition resetEndpoint : string := "/reset".
Definition shutdownEndpoint : string := "/shutdown".
Definition healthcheckEndpoint : string := "".

Section Package.

Variable out : Outside.
(** The package variable [timeout]: 5 s in emulator.go, 30 s in part_000. *)
Variable timeout : Z.

(** [func (e *Emulator) command(extraArgs ...string) *exec.Cmd]: the argv. *)
Definition command (extraArgs : list string) : list string :=
  "gcloud" :: (["beta"; "emulators"; "datastore"] ++ extraArgs).

(** [exec.Cmd.Start]: spawn without waiting. *)
Definition cmd_Start (argv : list string) : M (option error) := fun e w =>
  let err := cmdStart out (nexec w) argv in
  Ret err e (emit (EvStart argv err) (nextExec w)).

(** [exec.Cmd.Run] with [cmd.Stdout = &buf]. *)
Definition cmd_Run (argv : list string) : M Output := fun e w =>
  Ret (cmdRun out (nexec w) argv) e (emit (EvRun argv) (nextExec w)).

(** [func (e *Emulator) request(path, method string) error] *)
Definition request (path : string) (method : Method) : M (option error) :=
  fun e w =>
    let url := Host e +:+ path in
    match newRequest out method url with
    | Some err => Ret (Some err) e w
    | None =>
        let rt := roundTrip out (nreq w) method url in
        let w' := emit (EvRequest method url (resp rt))
                    (withClock (clock w + took rt) (nextReq w)) in
        match resp rt with
        | inl err => Ret (Some err) e w'
        | inr code =>
            if code =? 200 then Ret None e w'
            else Ret (Some (StatusCodeError code)) e w'
        end
    end.

(** [func (e *Emulator) isHealthy() bool] *)
Definition isHealthy : M bool :=
  let* err := request healthcheckEndpoint MethodGet in
  match err with
  | Some _ => ret false
  | None => ret true
  end.

(** [func (e *Emulator) Reset() error] *)
Definition Reset : M (option error) :=
  request resetEndpoint MethodPost.

(** [func (e *Emulator) Close() error] *)
Definition Close : M (option error) :=
  let* owned := getStopOnClose in
  if negb owned then ret None
  else
    os.Unsetenv "DATASTORE_EMULATOR_HOST" ;;;
    os.Unsetenv "DATASTORE_PROJECT_ID" ;;;
    let* healthy := isHealthy in
    if healthy then request shutdownEndpoint MethodPost
    else ret None.

(** *** [confirmStartup]: ticker, deadline and [select]

    [context.WithTimeout] closes [ctx.Done()] at [t0 + timeout].
    [time.NewTicker(pollingRate)] sends at [t0 + k * pollingRate], k >= 1,
    on a channel of capacity one and drops a tick when the channel is
    full.  The clock is ideal: only requests take time. *)

Definition ticksUpTo (t0 t : Z) : Z := (t - t0) / pollingRate.

Definition nextTick (t0 now : Z) : Z :=
  t0 + pollingRate * (ticksUpTo t0 now + 1).

(** Did the ticker fire in the interval (s, t]? *)
Definition tickedBetween (t0 s t : Z) : bool :=
  ticksUpTo t0 s <? ticksUpTo t0 t.

Inductive Case := CaseTick | CaseDone.

(** Both cases ready: Go picks one pseudo-randomly, here [selectTick]. *)
Definition contested : M Case := fun e w =>
  Ret (if selectTick out (nsel w) then CaseTick else CaseDone) e (nextSel w).

(** The [select] statement, with [buffered] telling whether [t.C] holds a
    tick.  A single ready case is taken; two ready cases are [contested].
    With no case ready it blocks until the earlier of the next tick and the
    deadline, and when the two fall on the same instant either may win, so
    that select is [contested] as well. *)
Definition select (t0 : Z) (buffered : bool) : M Case := fun e w =>
  let deadline := t0 + timeout in
  if buffered then
    if deadline <=? clock w then contested e w else Ret CaseTick e w
  else if deadline <=? clock w then Ret CaseDone e w
  else
    let next := nextTick t0 (clock w) in
    if next <? deadline then Ret CaseTick e (withClock next w)
    else if deadline <? next then Ret CaseDone e (withClock deadline w)
    else contested e (withClock deadline w).

Definition now : M Z := fun e w => Ret (clock w) e w.
Definition trace (ev : Event) : M unit := fun e w => Ret tt e (emit ev w).

(** The [for { select { ... } }] loop; one unit of [fuel] per turn.  After
    a failed probe, [t.C] holds a tick if the ticker fired while the probe
    was under way. *)
Fixpoint poll (fuel : nat) (t0 : Z) (buffered : bool) : M (option error) :=
  match fuel with
  | O => fun _ _ => Diverge
  | S fuel' =>
      let* c := select t0 buffered in
      match c with
      | CaseTick =>
          trace EvTick ;;;
          let* s := now in
          let* healthy := isHealthy in
          if healthy then ret None
          else
            let* t := now in
            poll fuel' t0 (tickedBetween t0 s t)
      | CaseDone =>
          trace EvDone ;;;
          ret (Some DeadlineExceeded)
      end
  end.

(** [func (e *Emulator) confirmStartup() error] *)
Definition confirmStartup (fuel : nat) : M (option error) :=
  let* t0 := now in
  poll fuel t0 false.

End Package.

(** Go indexing [l[i]]: panics out of range. *)
Definition index {A} (l : list A) (i : nat) : M A :=
  match l !! i with
  | Some x => ret x
  | None => panic "index out of range"
  end.

(** Go map indexing [m[k]]: the zero value when the key is missing. *)
Definition mapGet (m : gmap string string) (k : string) : string :=
  default EmptyString (m !! k).

(** [&Emulator{}] *)
Definition zeroEmulator : Emulator := mkEmulator "" "" false.

(** ** src/emulator.go: the version that asks [env-init] *)

Module EnvInit.

Definition timeout : Z := 5 * time.Second.

(** The command line [Start] runs. *)
Definition startArgs : list string :=
  command ["start";
           "--consistency=1.0";     (* prevents random test failures *)
           "--no-store-on-disk"].   (* test in memory *)

Section WithOutside.

Variable out : Outside.

(** [func (e *Emulator) instanceIsPresent() bool] *)
Definition instanceIsPresent : M bool :=
  let* host := os.Getenv "DATASTORE_HOST" in
  if String.eqb host "" then ret false
  else
    let* projectID := os.Getenv "DATASTORE_PROJECT_ID" in
    if String.eqb projectID "" then ret false
    else
      let* healthy := isHealthy out in
      if negb healthy then ret false
      else
        setHost host ;;;
        setProjectID projectID ;;;
        ret true.

(** The body of the scanner loop of [initEnv]:
    [e := strings.Split(strings.Split(line, " ")[1], "="); env[e[0]] = e[1]] *)
Definition scanLine (line : string) (env : gmap string string)
  : M (gmap string string) :=
  let* tok := index (strings.Split line " ") 1 in
  let kv := strings.Split tok "=" in
  let* k := index kv 0 in
  let* v := index kv 1 in
  ret (<[k := v]> env).

(** [for scanner.Scan() { ... }] *)
Fixpoint scanLines (lines : list string) (env : gmap string string)
  : M (gmap string string) :=
  match lines with
  | [] => ret env
  | line :: rest =>
      let* env' := scanLine line env in
      scanLines rest env'
  end.

(** [func (e *Emulator) initEnv() error] *)
Definition initEnv : M (option error) :=
  let* o := cmd_Run out (command ["env-init"]) in
  match o with
  | RunFailed err => ret (Some err)
  | Printed lines scanErr =>
      let* env := scanLines lines ∅ in
      match scanErr with
      | Some err => ret (Some err)
      | None =>
          setHost (mapGet env "DATASTORE_HOST") ;;;
          setProjectID (mapGet env "DATASTORE_PROJECT_ID") ;;;
          os.Setenv "DATASTORE_EMULATOR_HOST"
            (mapGet env "DATASTORE_EMULATOR_HOST") ;;;
          os.Setenv "DATASTORE_PROJECT_ID"
            (mapGet env "DATASTORE_PROJECT_ID") ;;;
          ret None
      end
  end.

(** [func (e *Emulator) Start() error] *)
Definition Start (fuel : nat) : M (option error) :=
  let* present := instanceIsPresent in
  if present then ret None
  else
    setStopOnClose true ;;;
    let* err := cmd_Start out startArgs in
    match err with
    | Some err => ret (Some err)
    | None =>
        let* err := initEnv in
        match err with
        | Some err => Close out ;;; ret (Some err)
        | None =>
            let* err := confirmStartup out timeout fuel in
            match err with
            | Some err => Close out ;;; ret (Some err)
            | None => ret None
            end
        end
    end.

(** [func New() ( *Emulator, error)]: the returned pointer is the handle
    of the result when the error is [None], and nil otherwise. *)
Definition New (fuel : nat) (w : World) : Res (option error) :=
  Start fuel zeroEmulator w.

End WithOutside.

End EnvInit.

(** ** src/unnamed/part_000: the version with a fixed host and project *)

Module FixedHost.

Definition timeout : Z := 30 * time.Second.
Definition defaultProject : string := "test".
Definition defaultHost : string := "localhost:8088".

(** The command line [Start] runs. *)
Definition startArgs : list string :=
  command ["start";
           "--consistency=1.0";             (* prevents random test failures *)
           "--no-store-on-disk";            (* test in memory *)
           "--host-port=" +:+ defaultHost;  (* use a specific port *)
           "--project=" +:+ defaultProject]. (* use a specific project name *)

(** The handle once [Start] has started the command. *)
Definition launched : Emulator :=
  mkEmulator ("http://" +:+ defaultHost) defaultProject true.

Section WithOutside.

Variable out : Outside.

(** [func (e *Emulator) instanceIsPresent() bool] *)
Definition instanceIsPresent : M bool :=
  let* host := os.Getenv "DATASTORE_HOST" in
  if String.eqb host "" then ret false
  else
    let* projectID := os.Getenv "DATASTORE_PROJECT_ID" in
    if String.eqb projectID "" then ret false
    else
      let* err := request out host MethodGet in
      match err with
      | Some _ => ret false
      | None =>
          setHost host ;;;
          setProjectID projectID ;;;
          ret true
      end.

(** [func (e *Emulator) initEnv()] *)
Definition initEnv : M unit := ret tt.

(** [func (e *Emulator) Start() error] *)
Definition Start (fuel : nat) : M (option error) :=
  let* present := instanceIsPresent in
  if present then ret None
  else
    setStopOnClose true ;;;
    let* err := cmd_Start out startArgs in
    match err with
    | Some err => ret (Some err)
    | None =>
        setHost ("http://" +:+ defaultHost) ;;;
        setProjectID defaultProject ;;;
        let* err := confirmStartup out timeout fuel in
        match err with
        | Some err => Close out ;;; ret (Some err)
        | None =>
            os.Setenv "DATASTORE_EMULATOR_HOST" defaultHost ;;;
            os.Setenv "DATASTORE_PROJECT_ID" defaultProject ;;;
            ret None
        end
    end.

(** [func New() ( *Emulator, error)] *)
Definition New (fuel : nat) (w : World) : Res (option error) :=
  Start fuel zeroEmulator w.

End WithOutside.

End FixedHost.

(** ** Reading runs *)

(** Does the n-th request of the process, sent to [url], come back with
    status 200?  This is when [request] returns a nil error. *)
Definition answers200 (out : Outside) (n : nat) (method : Method) (url : string)
  : bool :=
  match newRequest out method url with
  | Some _ => false
  | None =>
      match resp (roundTrip out n method url) with
      | inl _ => false
      | inr code => code =? 200
      end
  end.

(** The world after a request to [url] went out and was answered. *)
Definition answered (out : Outside) (method : Method) (url : string) (w : World)
  : World :=
  let rt := roundTrip out (nreq w) method url in
  emit (EvRequest method url (resp rt)) (withClock (clock w + took rt) (nextReq w)).

(** The handle once [Start] has set [stopOnClose], and the world once the
    command [argv] has been started. *)
Definition owned (e : Emulator) : Emulator :=
  mkEmulator (Host e) (ProjectID e) true.

Definition spawned (argv : list string) (w : World) : World :=
  emit (EvStart argv None) (nextExec w).

Definition isPost (ev : Event) : bool :=
  match ev with
  | EvRequest MethodPost _ _ => true
  | _ => false
  end.

Definition isSpawn (ev : Event) : bool :=
  match ev with
  | EvStart _ _ => true
  | _ => false
  end.

Definition isSetenv (ev : Event) : bool :=
  match ev with
  | EvSetenv _ _ => true
  | _ => false
  end.

(** A health probe that was answered with 200. *)
Definition isHealthyProbe (ev : Event) : bool :=
  match ev with
  | EvRequest MethodGet _ (inr code) => code =? 200
  | _ => false
  end.

(** The events of the polling loop: ticks, the deadline, health probes. *)
Definition isPollEvent (ev : Event) : bool :=
  match ev with
  | EvTick | EvDone | EvRequest MethodGet _ _ => true
  | _ => false
  end.

(** Every write of an environment variable comes after a healthy probe. *)
Fixpoint publishedAfterConfirm (confirmed : bool) (evs : list Event) : bool :=
  match evs with
  | [] => true
  | ev :: evs' =>
      if isSetenv ev then confirmed && publishedAfterConfirm confirmed evs'
      else publishedAfterConfirm (confirmed || isHealthyProbe ev) evs'
  end.

(** Every health probe of the handle [e] fails. *)
Definition neverHealthy (out : Outside) (e : Emulator) : Prop :=
  forall n, answers200 out n MethodGet (Host e +:+ healthcheckEndpoint) = false.

(** A request is back within its own timeout, [pollingRate]. *)
Definition withinRequestTimeout (out : Outside) : Prop :=
  forall n method url, 0 <= took (roundTrip out n method url) <= pollingRate.

(** A [select] that finds both channels ready takes the deadline. *)
Definition prefersDeadline (out : Outside) : Prop :=
  forall n, selectTick out n = false.

(** No request takes negative time. *)
Definition requestsTakeTime (out : Outside) : Prop :=
  forall n method url, 0 <= took (roundTrip out n method url).

(** A request is back before the ticker can fire again: in less than one
    polling interval. *)
Definition fasterThanTick (out : Outside) : Prop :=
  forall n method url, 0 <= took (roundTrip out n method url) < pollingRate.

(** The two variables the package writes and unsets. *)
Definition published (k : string) : Prop :=
  k = "DATASTORE_EMULATOR_HOST" \/ k = "DATASTORE_PROJECT_ID".

(** [cut c s]: the parts of [s] before and after its first byte [c], if it
    has one (Go's [strings.Cut] for a one-byte separator). *)
Fixpoint cut (c : ascii) (s : string) : option (string * string) :=
  match s with
  | EmptyString => None
  | String c' s' =>
      if Ascii.eqb c c' then Some (EmptyString, s')
      else match cut c s' with
           | Some (a, b) => Some (String c' a, b)
           | None => None
           end
  end.

(** The part of [s] before its first byte [c], or all of [s]. *)
Definition upTo (c : ascii) (s : string) : string :=
  match cut c s with
  | Some (a, _) => a
  | None => s
  end.

(** The line [env-init] prints for one assignment. *)
Definition exportLine (kv : string * string) : string :=
  "export " +:+ kv.1 +:+ "=" +:+ kv.2.

(** A key or value that such a line can carry: no space and no '='. *)
Definition isWord (s : string) : Prop :=
  os.hasByte " " s = false /\ os.hasByte "=" s = false.

(** The map the scanner loop builds from assignments, later ones winning. *)
Definition assigned (kvs : list (string * string)) (env : gmap string string)
  : gmap string string :=
  fold_left (fun m kv => <[kv.1 := kv.2]> m) kvs env.

(** ** Concrete machines, used to run the code *)

Module Scenario.

Definition emulatorURL : string := "http://localhost:8081".

(** An emulator is listening on [emulatorURL]; nothing else answers. *)
Definition listening : Outside :=
  mkOutside
    (fun _ _ => None)
    (fun _ _ url =>
       if String.prefix emulatorURL url
       then mkRoundTrip (inr 200) time.Millisecond
       else mkRoundTrip (inl TransportError) 0)
    (fun _ _ => None)
    (fun _ _ => Printed [] None)
    (fun _ => false).

(** The environment a developer exports for a running emulator. *)
Definition exported : gmap string string :=
  <["DATASTORE_HOST" := emulatorURL]>
    (<["DATASTORE_PROJECT_ID" := "demo"]> ∅).

Definition boot (env : gmap string string) : World :=
  mkWorld env 0 0 0 0 [].

(** The handle once [initEnv] has read the coordinates. *)
Definition launched : Emulator := mkEmulator emulatorURL "demo" true.

(** [gcloud] cannot be started; connections are refused at once. *)
Definition noGcloud : Outside :=
  mkOutside
    (fun _ _ => None)
    (fun _ _ _ => mkRoundTrip (inl TransportError) 0)
    (fun _ _ => Some (ExecError 2))
    (fun _ _ => RunFailed (ExecError 2))
    (fun _ => false).

(** The emulator is started, but [env-init] cannot run; connections are
    refused at once. *)
Definition envInitFails : Outside :=
  mkOutside
    (fun _ _ => None)
    (fun _ _ _ => mkRoundTrip (inl TransportError) 0)
    (fun _ _ => None)
    (fun _ _ => RunFailed (ExecError 1))
    (fun _ => false).

(** [env-init] prints what gcloud prints. *)
Definition envInitLines : list string :=
  [ "export DATASTORE_DATASET=demo";
    "export DATASTORE_EMULATOR_HOST=localhost:8081";
    "export DATASTORE_EMULATOR_HOST_PATH=localhost:8081/datastore";
    "export DATASTORE_HOST=http://localhost:8081";
    "export DATASTORE_PROJECT_ID=demo" ].

(** The same output as assignments. *)
Definition envInitPairs : list (string * string) :=
  [ ("DATASTORE_DATASET", "demo");
    ("DATASTORE_EMULATOR_HOST", "localhost:8081");
    ("DATASTORE_EMULATOR_HOST_PATH", "localhost:8081/datastore");
    ("DATASTORE_HOST", "http://localhost:8081");
    ("DATASTORE_PROJECT_ID", "demo") ].

(** The emulator starts, and answers from the request number [ready] on;
    before that connections are refused at once. *)
Definition booting (ready : nat) (lines : list string) : Outside :=
  mkOutside
    (fun _ _ => None)
    (fun n _ _ =>
       if (ready <=? n)%nat
       then mkRoundTrip (inr 200) time.Millisecond
       else mkRoundTrip (inl TransportError) 0)
    (fun _ _ => None)
    (fun _ _ => Printed lines None)
    (fun _ => false).

(** The emulator starts but never serves: every request runs into its
    200 ms timeout; twice, a [select] with both channels ready takes the
    tick. *)
Definition hung (lines : list string) : Outside :=
  mkOutside
    (fun _ _ => None)
    (fun _ _ _ => mkRoundTrip (inl TransportError) pollingRate)
    (fun _ _ => None)
    (fun _ _ => Printed lines None)
    (fun n => (n <? 2)%nat).

(** The emulator starts but never serves, and refuses connections. *)
Definition unreachable (lines : list string) : Outside :=
  mkOutside
    (fun _ _ => None)
    (fun _ _ _ => mkRoundTrip (inl TransportError) 0)
    (fun _ _ => None)
    (fun _ _ => Printed lines None)
    (fun _ => false).

(** An emulator is listening on [emulatorURL] and gcloud works: the command
    starts, and [env-init] prints [lines]. *)
Definition occupied (lines : list string) : Outside :=
  mkOutside
    (fun _ _ => None)
    (fun _ _ url =>
       if String.prefix emulatorURL url
       then mkRoundTrip (inr 200) time.Millisecond
       else mkRoundTrip (inl TransportError) 0)
    (fun _ _ => None)
    (fun _ _ => Printed lines None)
    (fun _ => false).

(** The emulator starts but never serves, and refuses connections; a
    [select] with both channels ready takes the tick. *)
Definition eager (lines : list string) : Outside :=
  mkOutside
    (fun _ _ => None)
    (fun _ _ _ => mkRoundTrip (inl TransportError) 0)
    (fun _ _ => None)
    (fun _ _ => Printed lines None)
    (fun _ => true).

End Scenario.

(** ** Requests and health checks *)

Section Requests.

Variable out : Outside.

Lemma request_ok path method e w :
  answers200 out (nreq w) method (Host e +:+ path) = true ->
  request out path method e w
  = Ret None e (answered out method (Host e +:+ path) w).
Proof.
  unfold answers200, request, answered. intros H.
  destruct (newRequest out method _); [discriminate|].
  destruct (resp _) as [err|code]; [discriminate|].
  now rewrite H.
Qed.

Lemma request_failed path method e w :
  answers200 out (nreq w) method (Host e +:+ path) = false ->
  exists err w',
    request out path method e w = Ret (Some err) e w' /\
    ((newRequest out method (Host e +:+ path) <> None /\ w' = w) \/
     (newRequest out method (Host e +:+ path) = None /\
      w' = answered out method (Host e +:+ path) w)).
Proof.
  unfold answers200, request, answered. intros H.
  destruct (newRequest out method _) as [err|]; [now eauto 6|].
  destruct (resp _) as [err|code]; [now eauto 6|].
  rewrite H. eauto 6.
Qed.

Lemma isHealthy_true e w :
  answers200 out (nreq w) MethodGet (Host e +:+ healthcheckEndpoint) = true ->
  isHealthy out e w
  = Ret true e (answered out MethodGet (Host e +:+ healthcheckEndpoint) w).
Proof.
  intros H. unfold isHealthy, bind. now rewrite (request_ok _ _ _ _ H).
Qed.

Lemma isHealthy_false e w :
  answers200 out (nreq w) MethodGet (Host e +:+ healthcheckEndpoint) = false ->
  exists w',
    isHealthy out e w = Ret false e w' /\
    (w' = w \/
     (newRequest out MethodGet (Host e +:+ healthcheckEndpoint) = None /\
      w' = answered out MethodGet (Host e +:+ healthcheckEndpoint) w)).
Proof.
  intros H. unfold isHealthy, bind.
  destruct (request_failed _ _ _ _ H) as (err & w' & -> & [[_ Hw]|[Hn Hw]]);
    eauto.
Qed.

End Requests.

(** ** Close *)

Lemma Close_not_owned_run (out : Outside) (e : Emulator) (w : World) :
  stopOnClose e = false ->
  Close out e w = Ret None e w.
Proof.
  intros H. unfold Close, bind, getStopOnClose. now rewrite H.
Qed.

(** C5. On a handle that does not own its instance ([stopOnClose] false),
    [Close] returns nil and does nothing: no request is sent, and the
    environment, the log and the handle are the ones it was given. *)
Theorem Close_not_owned_is_inert (out : Outside) (e : Emulator) (w : World) :
  stopOnClose e = false ->
  Close out e w = Ret None e w.
Proof.
  intros H. unfold Close, bind, getStopOnClose. now rewrite H.
Qed.

Lemma Close_not_owned_is_inert_witness :
  Close Scenario.listening
    (mkEmulator Scenario.emulatorURL "demo" false)
    (Scenario.boot Scenario.exported)
  = Ret None (mkEmulator Scenario.emulatorURL "demo" false)
      (Scenario.boot Scenario.exported).
Proof.
  apply Close_not_owned_is_inert. reflexivity.
Defined.

Lemma answers200_resp out n method url :
  answers200 out n method url = true ->
  newRequest out method url = None /\
  resp (roundTrip out n method url) = inr 200.
Proof.
  unfold answers200. destruct (newRequest out method url); [discriminate|].
  destruct (resp _) as [err|code]; [discriminate|].
  intros H%Z.eqb_eq. now subst.
Qed.

(** What [Close] does on an owned handle. *)
Lemma Close_owned_run
  (out : Outside) (e : Emulator) (w : World) :
  stopOnClose e = true ->
  exists r w' rest,
    Close out e w = Ret r e w' /\
    environ w' = delete "DATASTORE_PROJECT_ID"
                   (delete "DATASTORE_EMULATOR_HOST" (environ w)) /\
    log w' = log w ++ EvUnsetenv "DATASTORE_EMULATOR_HOST"
                   :: EvUnsetenv "DATASTORE_PROJECT_ID" :: rest /\
    if answers200 out (nreq w) MethodGet (Host e +:+ healthcheckEndpoint)
    then
      exists rest',
        rest = EvRequest MethodGet (Host e +:+ healthcheckEndpoint) (inr 200)
                 :: rest' /\
        (r = None <->
         answers200 out (S (nreq w)) MethodPost (Host e +:+ shutdownEndpoint)
         = true) /\
        rest' = match newRequest out MethodPost (Host e +:+ shutdownEndpoint)
                with
                | Some _ => []
                | None =>
                    [EvRequest MethodPost (Host e +:+ shutdownEndpoint)
                       (resp (roundTrip out (S (nreq w)) MethodPost
                                (Host e +:+ shutdownEndpoint)))]
                end
    else r = None /\ existsb isPost rest = false /\
         forallb isPollEvent rest = true.
Proof.
  intros Howned.
  unfold Close, bind, getStopOnClose, os.Unsetenv. rewrite Howned. cbn [negb].
  set (w1 := emit _ (withEnviron _ (emit _ (withEnviron _ w)))).
  assert (Hn : nreq w1 = nreq w) by reflexivity.
  destruct (answers200 out (nreq w) MethodGet (Host e +:+ healthcheckEndpoint))
    eqn:Hprobe.
  - rewrite <- Hn in Hprobe. rewrite (isHealthy_true _ _ _ Hprobe).
    apply answers200_resp in Hprobe as [_ Hresp]. rewrite Hn in Hresp.
    set (w2 := answered out MethodGet _ w1).
    assert (Hn2 : nreq w2 = S (nreq w)) by reflexivity.
    destruct (answers200 out (S (nreq w)) MethodPost
                (Host e +:+ shutdownEndpoint)) eqn:Hshut.
    + pose proof Hshut as Hshut'. rewrite <- Hn2 in Hshut'.
      rewrite (request_ok _ _ _ _ _ Hshut').
      apply answers200_resp in Hshut as [Hnew Hresp'].
      eexists _, _, _. split; [reflexivity|].
      split; [reflexivity|]. split.
      * cbn. rewrite Hresp, <- !app_assoc. reflexivity.
      * eexists. split; [reflexivity|]. split; [tauto|].
        now rewrite Hnew, Hresp'.
    + pose proof Hshut as Hshut'. rewrite <- Hn2 in Hshut'.
      destruct (request_failed _ _ _ _ _ Hshut')
        as (err & w' & -> & [[Hnew ->]|[Hnew ->]]).
      * eexists _, _, _. split; [reflexivity|]. split; [reflexivity|].
        split; [cbn; rewrite Hresp, <- !app_assoc; reflexivity|].
        eexists. split; [reflexivity|].
        split; [split; discriminate |].
        now destruct (newRequest out MethodPost _).
      * eexists _, _, _. split; [reflexivity|]. split; [reflexivity|].
        split; [cbn; rewrite Hresp, <- !app_assoc; reflexivity|].
        eexists. split; [reflexivity|].
        split; [split; discriminate | now rewrite Hnew].
  - rewrite <- Hn in Hprobe.
    destruct (isHealthy_false _ _ _ Hprobe) as (w' & Hh & Hw').
    rewrite Hh. destruct Hw' as [-> | [_ ->]].
    + exists None, w1, []. repeat split; cbn; now rewrite <- ?app_assoc.
    + eexists None, _, [_]. split; [reflexivity|]. split; [reflexivity|].
      split; [cbn; rewrite <- !app_assoc; reflexivity|]. now repeat split.
Qed.

(** C4. On an owned handle [Close] first unsets DATASTORE_EMULATOR_HOST and
    DATASTORE_PROJECT_ID, whatever the health check will say; then it probes
    the instance once.  If the probe is answered with 200 it sends
    POST /shutdown and returns what that request returns; if not, it sends
    no shutdown request and returns nil. *)
Theorem Close_owned_unsets_then_shuts_down
  (out : Outside) (e : Emulator) (w : World) :
  stopOnClose e = true ->
  exists r w' rest,
    Close out e w = Ret r e w' /\
    environ w' = delete "DATASTORE_PROJECT_ID"
                   (delete "DATASTORE_EMULATOR_HOST" (environ w)) /\
    log w' = log w ++ EvUnsetenv "DATASTORE_EMULATOR_HOST"
                   :: EvUnsetenv "DATASTORE_PROJECT_ID" :: rest /\
    if answers200 out (nreq w) MethodGet (Host e +:+ healthcheckEndpoint)
    then
      exists rest',
        rest = EvRequest MethodGet (Host e +:+ healthcheckEndpoint) (inr 200)
                 :: rest' /\
        (r = None <->
         answers200 out (S (nreq w)) MethodPost (Host e +:+ shutdownEndpoint)
         = true) /\
        (newRequest out MethodPost (Host e +:+ shutdownEndpoint) = None ->
         rest' = [EvRequest MethodPost (Host e +:+ shutdownEndpoint)
                    (resp (roundTrip out (S (nreq w)) MethodPost
                             (Host e +:+ shutdownEndpoint)))])
    else r = None /\ existsb isPost rest = false.
Proof.
  intros Howned.
  destruct (Close_owned_run out e w Howned)
    as (r & w' & rest & Hclose & Henv & Hlog & Hrest).
  exists r, w', rest. repeat (split; [assumption|]).
  destruct (answers200 out (nreq w) MethodGet _); [|tauto].
  destruct Hrest as (rest' & -> & Hr & Hrest').
  exists rest'. split; [reflexivity|]. split; [assumption|].
  intros Hnew. now rewrite Hnew in Hrest'.
Qed.

Lemma Close_owned_unsets_then_shuts_down_witness :
  exists r w' rest,
    Close Scenario.listening Scenario.launched
      (Scenario.boot Scenario.exported) = Ret r Scenario.launched w' /\
    environ w' = delete "DATASTORE_PROJECT_ID"
                   (delete "DATASTORE_EMULATOR_HOST" Scenario.exported) /\
    log w' = [] ++ EvUnsetenv "DATASTORE_EMULATOR_HOST"
                :: EvUnsetenv "DATASTORE_PROJECT_ID" :: rest /\
    if answers200 Scenario.listening 0 MethodGet
         (Scenario.emulatorURL +:+ healthcheckEndpoint)
    then
      exists rest',
        rest = EvRequest MethodGet
                 (Scenario.emulatorURL +:+ healthcheckEndpoint) (inr 200)
                 :: rest' /\
        (r = None <->
         answers200 Scenario.listening 1 MethodPost
           (Scenario.emulatorURL +:+ shutdownEndpoint) = true) /\
        (newRequest Scenario.listening MethodPost
           (Scenario.emulatorURL +:+ shutdownEndpoint) = None ->
         rest' = [EvRequest MethodPost
                    (Scenario.emulatorURL +:+ shutdownEndpoint)
                    (resp (roundTrip Scenario.listening 1 MethodPost
                             (Scenario.emulatorURL +:+ shutdownEndpoint)))])
    else r = None /\ existsb isPost rest = false.
Proof.
  apply (Close_owned_unsets_then_shuts_down Scenario.listening
           Scenario.launched (Scenario.boot Scenario.exported)).
  reflexivity.
Defined.

(** ** Discovery and adoption *)

Lemma answered_healthy out url w :
  answers200 out (nreq w) MethodGet url = true ->
  log (answered out MethodGet url w)
  = log w ++ [EvRequest MethodGet url (inr 200)].
Proof.
  intros [_ H]%answers200_resp. unfold answered. cbn. now rewrite H.
Qed.

(** C1. With a healthy emulator listening on the address in DATASTORE_HOST
    and DATASTORE_PROJECT_ID set, [Start] of emulator.go on a fresh handle
    does not adopt it: the probe of discovery goes to the empty URL and
    fails, so [Start] starts gcloud and marks the handle owned.  When
    [env-init] then reports the address of the instance that was already
    running, [Start] returns nil with an owned handle, and [Close] on that
    handle shuts that instance down.  When [env-init] reports nothing,
    [Start] gives up at the deadline and the DATASTORE_PROJECT_ID of the
    caller is gone.  part_000 adopts on the same input: nil, the two values
    in the handle, not owned, one probe, no command, the environment as it
    was.  In both versions adoption leaves [stopOnClose] as it finds it, so
    a handle that an earlier failed [Start] left owned adopts and stays
    owned. *)
Theorem Start_spawns_beside_healthy_instance :
  let w := Scenario.boot Scenario.exported in
  let adopted := mkEmulator Scenario.emulatorURL "demo" false in
  (exists w',
     EnvInit.Start (Scenario.occupied Scenario.envInitLines) 30 zeroEmulator w
     = Ret None (owned adopted) w' /\
     log w' = [EvRequest MethodGet "" (inl TransportError);
               EvStart EnvInit.startArgs None;
               EvRun (command ["env-init"]);
               EvSetenv "DATASTORE_EMULATOR_HOST" "localhost:8081";
               EvSetenv "DATASTORE_PROJECT_ID" "demo";
               EvTick;
               EvRequest MethodGet Scenario.emulatorURL (inr 200)] /\
     nexec w' = 2%nat /\
     exists w'',
       Close (Scenario.occupied Scenario.envInitLines) (owned adopted) w'
       = Ret None (owned adopted) w'' /\
       In (EvRequest MethodPost (Scenario.emulatorURL +:+ shutdownEndpoint)
             (inr 200)) (log w'')) /\
  (exists e' w',
     EnvInit.Start Scenario.listening 30 zeroEmulator w
     = Ret (Some DeadlineExceeded) e' w' /\
     stopOnClose e' = true /\
     In (EvStart EnvInit.startArgs None) (log w') /\
     existsb isHealthyProbe (log w') = false /\
     os.lookupEnv w "DATASTORE_PROJECT_ID" = "demo" /\
     environ w' !! "DATASTORE_PROJECT_ID" = None) /\
  (exists w',
     FixedHost.Start Scenario.listening 30 zeroEmulator w
     = Ret None adopted w' /\
     log w' = [EvRequest MethodGet Scenario.emulatorURL (inr 200)] /\
     nexec w' = 0%nat /\ environ w' = Scenario.exported) /\
  (exists w',
     FixedHost.Start Scenario.listening 30 (owned zeroEmulator) w
     = Ret None (owned adopted) w' /\
     log w' = [EvRequest MethodGet Scenario.emulatorURL (inr 200)]).
Proof.
  split; [|split; [|split]].
  - eexists. split; [vm_compute; reflexivity|].
    split; [reflexivity|]. split; [reflexivity|].
    eexists. split; [vm_compute; reflexivity|].
    vm_compute. repeat (first [left; reflexivity | right]).
  - eexists _, _. split; [vm_compute; reflexivity|].
    split; [reflexivity|].
    split; [vm_compute; repeat (first [left; reflexivity | right])|].
    split; [vm_compute; reflexivity|]. split; reflexivity.
  - eexists. split; [vm_compute; reflexivity|].
    split; [reflexivity|]. split; reflexivity.
  - eexists. split; [vm_compute; reflexivity|]. reflexivity.
Qed.

(** C2. emulator.go sends the health probe of discovery to [e.Host], not to
    the address it has just read from DATASTORE_HOST: whatever the
    environment holds, the only request [instanceIsPresent] can send is a GET
    to [e.Host].  With an emulator listening on the address of the
    environment, a fresh handle therefore probes the empty URL and nothing is
    adopted.  part_000 probes [e.Host + host], which for a fresh handle is
    the address of the environment, and adopts. *)
Theorem instanceIsPresent_probes_handle_host :
  (forall (out : Outside) (e : Emulator) (w : World),
     exists present e' w' evs,
       EnvInit.instanceIsPresent out e w = Ret present e' w' /\
       log w' = log w ++ evs /\
       (evs = [] \/
        exists r,
          evs = [EvRequest MethodGet (Host e +:+ healthcheckEndpoint) r])) /\
  (exists w',
     EnvInit.instanceIsPresent Scenario.listening zeroEmulator
       (Scenario.boot Scenario.exported) = Ret false zeroEmulator w' /\
     log w' = [EvRequest MethodGet "" (inl TransportError)]) /\
  (exists w',
     FixedHost.instanceIsPresent Scenario.listening zeroEmulator
       (Scenario.boot Scenario.exported)
     = Ret true (mkEmulator Scenario.emulatorURL "demo" false) w' /\
     log w' = [EvRequest MethodGet Scenario.emulatorURL (inr 200)]).
Proof.
  split; [|split; eexists; split; vm_compute; reflexivity].
  intros out e w.
  unfold EnvInit.instanceIsPresent, bind at 1, os.Getenv at 1.
  destruct (String.eqb _ _).
  { exists false, e, w, []. rewrite app_nil_r. now repeat split; left. }
  unfold bind at 1, os.Getenv at 1.
  destruct (String.eqb _ _).
  { exists false, e, w, []. rewrite app_nil_r. now repeat split; left. }
  unfold bind at 1.
  destruct (answers200 out (nreq w) MethodGet (Host e +:+ healthcheckEndpoint))
    eqn:Hprobe.
  - rewrite (isHealthy_true _ _ _ Hprobe). cbn.
    eexists _, _, _, _. split; [reflexivity|].
    split; [now apply answered_healthy|]. right. now eexists.
  - destruct (isHealthy_false _ _ _ Hprobe) as (w' & -> & [-> | [_ ->]]); cbn.
    + exists false, e, w, []. rewrite app_nil_r. now repeat split; left.
    + eexists _, _, _, _. split; [reflexivity|].
      split; [reflexivity|]. right. now eexists.
Qed.

(** ** Ownership *)

(** C3. [Start] sets [stopOnClose] before it starts the command and returns
    the error of a failed start without clearing it: the handle is owned
    although nothing was spawned, and a later [Close] on it unsets a
    DATASTORE_PROJECT_ID that this handle never wrote. *)
Theorem Start_spawn_failure_leaves_handle_owned :
  let w := Scenario.boot (<["DATASTORE_PROJECT_ID" := "mine"]> ∅) in
  (exists w',
     EnvInit.Start Scenario.noGcloud 0 zeroEmulator w
     = Ret (Some (ExecError 2)) (mkEmulator "" "" true) w' /\
     log w' = [EvStart EnvInit.startArgs (Some (ExecError 2))] /\
     exists w'',
       Close Scenario.noGcloud (mkEmulator "" "" true) w'
       = Ret None (mkEmulator "" "" true) w'' /\
       os.lookupEnv w' "DATASTORE_PROJECT_ID" = "mine" /\
       environ w'' !! "DATASTORE_PROJECT_ID" = None) /\
  (exists w',
     FixedHost.Start Scenario.noGcloud 0 zeroEmulator w
     = Ret (Some (ExecError 2)) (mkEmulator "" "" true) w' /\
     log w' = [EvStart FixedHost.startArgs (Some (ExecError 2))]).
Proof.
  split.
  - eexists. split; [vm_compute; reflexivity|]. split; [reflexivity|].
    eexists. split; [vm_compute; reflexivity|]. split; reflexivity.
  - eexists. split; [vm_compute; reflexivity|]. reflexivity.
Qed.

(** ** Parsing the output of env-init *)

(** C8. The loop body of [initEnv] takes the second word of the line and
    splits it on '=', as it does for a line [env-init] prints; but it indexes
    the pieces without looking at their number: a line without a space, or
    whose second word has no '=', makes it panic with an index out of range,
    and [Start] panics with it instead of returning an error.  Output without the expected
    keys is accepted: [initEnv] returns nil and leaves [Host] empty. *)
Theorem initEnv_panics_on_malformed_line :
  let e := mkEmulator "" "" true in
  let w := Scenario.boot ∅ in
  EnvInit.scanLine "export DATASTORE_HOST=http://localhost:8081" ∅ e w
  = Ret (<["DATASTORE_HOST" := "http://localhost:8081"]> ∅) e w /\
  EnvInit.scanLine "DATASTORE_HOST=http://localhost:8081" ∅ e w
  = Panic "index out of range" e w /\
  EnvInit.scanLine "export DATASTORE_HOST" ∅ e w
  = Panic "index out of range" e w /\
  EnvInit.scanLine "" ∅ e w = Panic "index out of range" e w /\
  (exists e' w',
     EnvInit.Start
       (Scenario.booting 0 ["DATASTORE_HOST=http://localhost:8081"])
       0 zeroEmulator w
     = Panic "index out of range" e' w') /\
  (exists w',
     EnvInit.initEnv (Scenario.booting 0 []) e w
     = Ret None (mkEmulator "" "" true) w').
Proof.
  repeat split; try (vm_compute; reflexivity);
    repeat eexists; vm_compute; reflexivity.
Qed.

(** ** The polling loop *)

Section Polling.

Variable out : Outside.
Variable timeout : Z.

Lemma select_run t0 buffered e w :
  exists c w1,
    select out timeout t0 buffered e w = Ret c e w1 /\
    log w1 = log w /\ environ w1 = environ w /\
    nexec w1 = nexec w /\ nreq w1 = nreq w /\
    (c = CaseDone -> t0 + timeout <= clock w1).
Proof.
  unfold select, contested.
  destruct buffered.
  - destruct (t0 + timeout <=? clock w) eqn:Hd.
    + eexists _, _. split; [reflexivity|]. repeat split. cbn. lia.
    + eexists _, _. split; [reflexivity|]. repeat split. discriminate.
  - destruct (t0 + timeout <=? clock w) eqn:Hd.
    + eexists _, _. split; [reflexivity|]. repeat split. lia.
    + destruct (nextTick t0 (clock w) <? t0 + timeout).
      * eexists _, _. split; [reflexivity|]. repeat split. discriminate.
      * destruct (t0 + timeout <? nextTick t0 (clock w));
          eexists _, _; (split; [reflexivity|]); repeat split; cbn; lia.
Qed.

Lemma isHealthy_run e w :
  exists healthy w' evs,
    isHealthy out e w = Ret healthy e w' /\
    healthy
    = answers200 out (nreq w) MethodGet (Host e +:+ healthcheckEndpoint) /\
    log w' = log w ++ evs /\ environ w' = environ w /\
    nexec w' = nexec w /\
    forallb isPollEvent evs = true /\
    existsb isHealthyProbe evs = healthy.
Proof.
  destruct (answers200 out (nreq w) MethodGet (Host e +:+ healthcheckEndpoint))
    eqn:Hprobe.
  - rewrite (isHealthy_true _ _ _ Hprobe).
    eexists _, _, _. split; [reflexivity|]. split; [reflexivity|].
    split; [now apply answered_healthy|]. now repeat split.
  - destruct (isHealthy_false _ _ _ Hprobe) as (w' & -> & [-> | [Hnew ->]]).
    + exists false, w, []. rewrite app_nil_r. now repeat split.
    + eexists _, _, [_]. split; [reflexivity|]. split; [reflexivity|].
      split; [reflexivity|]. repeat split. cbn.
      unfold answers200 in Hprobe. rewrite Hnew in Hprobe.
      destruct (resp _); [reflexivity|]. now rewrite Hprobe.
Qed.

(** What a run of the loop that returns has done: nothing to the handle,
    the environment or the commands; its events are ticks, probes and the
    deadline; nil comes with a probe answered 200, and an error is the
    deadline error, returned once the deadline has passed. *)
Lemma poll_run fuel :
  forall t0 buffered e w r e' w',
    poll out timeout fuel t0 buffered e w = Ret r e' w' ->
    e' = e /\ environ w' = environ w /\ nexec w' = nexec w /\
    exists evs,
      log w' = log w ++ evs /\
      forallb isPollEvent evs = true /\
      match r with
      | None => existsb isHealthyProbe evs = true
      | Some err =>
          err = DeadlineExceeded /\ In EvDone evs /\
          t0 + timeout <= clock w'
      end.
Proof.
  induction fuel as [|fuel IH]; intros t0 buffered e w r e' w' Hrun;
    [discriminate|].
  cbn [poll] in Hrun. unfold bind at 1 in Hrun.
  destruct (select_run t0 buffered e w)
    as (c & w1 & Hsel & Hlog1 & Henv1 & Hexec1 & _ & Hdone).
  rewrite Hsel in Hrun. destruct c.
  - unfold bind at 1, trace at 1 in Hrun.
    unfold bind at 1, now at 1 in Hrun.
    unfold bind at 1 in Hrun.
    destruct (isHealthy_run e (emit EvTick w1))
      as (healthy & w2 & evs & Hh & _ & Hlog2 & Henv2 & Hexec2 & Hpoll & Hok).
    cbn in Henv2, Hexec2. rewrite Hh in Hrun. destruct healthy.
    + inversion Hrun; subst.
      split; [reflexivity|]. split; [congruence|]. split; [congruence|].
      exists (EvTick :: evs). rewrite Hlog2. cbn. rewrite Hlog1, <- app_assoc.
      repeat split; auto.
    + unfold bind at 1, now at 1 in Hrun.
      apply IH in Hrun as (-> & Henv3 & Hexec3 & evs' & Hlog3 & Hpoll' & Hr).
      split; [reflexivity|]. split; [congruence|]. split; [congruence|].
      exists (EvTick :: evs ++ evs'). rewrite Hlog3, Hlog2. cbn.
      rewrite Hlog1, <- !app_assoc. split; [reflexivity|].
      rewrite forallb_app, Hpoll, Hpoll'. split; [reflexivity|].
      destruct r as [err|].
      * destruct Hr as (-> & Hin & Hclock). repeat split; auto.
        right. apply in_or_app. now right.
      * rewrite existsb_app, Hr. now destruct (existsb _ evs).
  - unfold bind in Hrun. cbn in Hrun. inversion Hrun; subst.
    split; [reflexivity|]. split; [assumption|]. split; [assumption|].
    exists [EvDone]. cbn. rewrite Hlog1.
    repeat split; auto.
Qed.

Lemma confirmStartup_run fuel e w r e' w' :
  confirmStartup out timeout fuel e w = Ret r e' w' ->
  e' = e /\ environ w' = environ w /\ nexec w' = nexec w /\
  exists evs,
    log w' = log w ++ evs /\
    forallb isPollEvent evs = true /\
    match r with
    | None => existsb isHealthyProbe evs = true
    | Some err =>
        err = DeadlineExceeded /\ In EvDone evs /\
        clock w + timeout <= clock w'
    end.
Proof.
  unfold confirmStartup, bind, now. apply poll_run.
Qed.

End Polling.

(** ** The steps of Start *)

Section Steps.

Variable out : Outside.

Lemma EnvInit_instanceIsPresent_run e w :
  exists present e' w' evs,
    EnvInit.instanceIsPresent out e w = Ret present e' w' /\
    log w' = log w ++ evs /\ environ w' = environ w /\
    nexec w' = nexec w /\
    forallb isPollEvent evs = true /\
    existsb isHealthyProbe evs = present /\
    stopOnClose e' = stopOnClose e /\
    (present = false -> e' = e).
Proof.
  unfold EnvInit.instanceIsPresent, bind at 1, os.Getenv at 1.
  destruct (String.eqb _ _).
  { exists false, e, w, []. rewrite app_nil_r. now repeat split. }
  unfold bind at 1, os.Getenv at 1.
  destruct (String.eqb _ _).
  { exists false, e, w, []. rewrite app_nil_r. now repeat split. }
  unfold bind at 1.
  destruct (isHealthy_run out e w)
    as (healthy & w' & evs & -> & _ & Hlog & Henv & Hexec & Hpoll & Hok).
  destruct healthy; cbn; eexists _, _, _, evs;
    (split; [reflexivity|]); now repeat split.
Qed.

Lemma FixedHost_instanceIsPresent_run e w :
  exists present e' w' evs,
    FixedHost.instanceIsPresent out e w = Ret present e' w' /\
    log w' = log w ++ evs /\ environ w' = environ w /\
    nexec w' = nexec w /\
    forallb isPollEvent evs = true /\
    existsb isHealthyProbe evs = present /\
    stopOnClose e' = stopOnClose e /\
    (present = false -> e' = e).
Proof.
  unfold FixedHost.instanceIsPresent, bind at 1, os.Getenv at 1.
  destruct (String.eqb _ _).
  { exists false, e, w, []. rewrite app_nil_r. now repeat split. }
  unfold bind at 1, os.Getenv at 1.
  destruct (String.eqb _ _).
  { exists false, e, w, []. rewrite app_nil_r. now repeat split. }
  unfold bind at 1. set (host := os.lookupEnv w "DATASTORE_HOST").
  destruct (answers200 out (nreq w) MethodGet (Host e +:+ host)) eqn:Hprobe.
  - rewrite (request_ok _ _ _ _ _ Hprobe). cbn.
    eexists _, _, _, [_]. split; [reflexivity|].
    split; [now apply answered_healthy|]. now repeat split.
  - destruct (request_failed _ _ _ _ _ Hprobe)
      as (err & w' & -> & [[_ ->]|[Hnew ->]]).
    + exists false, e, w, []. rewrite app_nil_r. now repeat split.
    + eexists false, e, _, [_]. split; [reflexivity|].
      split; [reflexivity|]. repeat split. cbn.
      unfold answers200 in Hprobe. rewrite Hnew in Hprobe.
      destruct (resp _); [reflexivity|]. now rewrite Hprobe.
Qed.

Lemma scanLines_pure lines :
  forall env env' e w e' w',
    EnvInit.scanLines lines env e w = Ret env' e' w' -> e' = e /\ w' = w.
Proof.
  induction lines as [|line lines IH]; intros env env' e w e' w' H.
  - now inversion H.
  - cbn [EnvInit.scanLines] in H. unfold bind at 1 in H.
    unfold EnvInit.scanLine, index, bind in H.
    destruct (strings.Split line " " !! 1%nat); [|discriminate]. cbn in H.
    destruct (strings.Split s "=" !! 0%nat); [|discriminate]. cbn in H.
    destruct (strings.Split s "=" !! 1%nat); [|discriminate]. cbn in H.
    now apply IH in H.
Qed.

(** [initEnv] writes the environment only when it returns nil, and then
    only the two published variables. *)
Lemma initEnv_run e w r e' w' :
  EnvInit.initEnv out e w = Ret r e' w' ->
  stopOnClose e' = stopOnClose e /\ nexec w' = S (nexec w) /\
  exists evs,
    log w' = log w ++ EvRun (command ["env-init"]) :: evs /\
    forallb isSetenv evs = true /\
    (r <> None -> evs = [] /\ environ w' = environ w) /\
    (forall k, ~ published k -> environ w' !! k = environ w !! k).
Proof.
  unfold EnvInit.initEnv, bind at 1, cmd_Run. intros H.
  assert (Hne : forall k, ~ published k ->
                  "DATASTORE_EMULATOR_HOST" <> k /\
                  "DATASTORE_PROJECT_ID" <> k).
  { intros k Hk. split; intros <-; apply Hk; [now left | now right]. }
  destruct (cmdRun out (nexec w) _) as [err | lines scanErr].
  - inversion H; subst. repeat split. exists []. now repeat split.
  - unfold bind at 1 in H.
    destruct (EnvInit.scanLines lines ∅ e _) as [env e1 w1| |] eqn:Hscan;
      try discriminate.
    apply scanLines_pure in Hscan as [-> ->].
    destruct scanErr as [err|].
    + inversion H; subst. repeat split. exists []. now repeat split.
    + unfold bind, setHost, setProjectID, os.Setenv, ret in H.
      destruct (os.validSetenv "DATASTORE_EMULATOR_HOST" _);
        destruct (os.validSetenv "DATASTORE_PROJECT_ID" _);
        inversion H; subst; cbn; (split; [reflexivity|]);
        (split; [reflexivity|]).
      * eexists [_; _]. rewrite <- !app_assoc.
        split; [reflexivity|]. split; [reflexivity|].
        split; [congruence|]. intros k [Hk1 Hk2]%Hne.
        now rewrite !lookup_insert_ne.
      * eexists [_]. rewrite <- !app_assoc.
        split; [reflexivity|]. split; [reflexivity|].
        split; [congruence|]. intros k [Hk1 Hk2]%Hne.
        now rewrite !lookup_insert_ne.
      * eexists [_]. rewrite <- !app_assoc.
        split; [reflexivity|]. split; [reflexivity|].
        split; [congruence|]. intros k [Hk1 Hk2]%Hne.
        now rewrite !lookup_insert_ne.
      * exists []. split; [reflexivity|]. split; [reflexivity|].
        split; [congruence|]. reflexivity.
Qed.

End Steps.

(** ** Cleanup after a failed confirmation *)

Section Cleanup.

Variable out : Outside.

(** After a failed confirmation [Start] runs [Close] on the handle, which
    is owned, drops what [Close] returns and returns the error of the
    confirmation. *)
Lemma Close_after_failure e w (err : error) :
  stopOnClose e = true ->
  exists r w' rest,
    Close out e w = Ret r e w' /\
    (Close out ;;; ret (Some err))%go e w = Ret (Some err) e w' /\
    environ w' = delete "DATASTORE_PROJECT_ID"
                   (delete "DATASTORE_EMULATOR_HOST" (environ w)) /\
    log w' = log w ++ EvUnsetenv "DATASTORE_EMULATOR_HOST"
                   :: EvUnsetenv "DATASTORE_PROJECT_ID" :: rest /\
    existsb isSetenv rest = false /\
    existsb isSpawn rest = false /\
    (existsb isPost rest = true ->
     answers200 out (nreq w) MethodGet (Host e +:+ healthcheckEndpoint)
     = true).
Proof.
  intros Howned.
  destruct (Close_owned_run out e w Howned)
    as (r & w' & rest & Hclose & Henv & Hlog & Hrest).
  exists r, w', rest. split; [assumption|].
  split; [unfold bind; now rewrite Hclose|].
  split; [assumption|]. split; [assumption|].
  destruct (answers200 out (nreq w) MethodGet _).
  - destruct Hrest as (rest' & -> & _ & ->).
    now destruct (newRequest out MethodPost _).
  - destruct Hrest as (_ & Hpost & Hpoll). rewrite Hpost.
    assert (Hno : existsb isSetenv rest = false /\
                  existsb isSpawn rest = false).
    { clear Hlog Hpost. induction rest as [|ev rest IH]; [now split|].
      cbn in Hpoll. apply andb_prop in Hpoll as [Hev Hpoll].
      destruct (IH Hpoll) as [IH1 IH2].
      destruct ev; try discriminate; now split. }
    destruct Hno. now repeat split.
Qed.

End Cleanup.

(** C6. [Start] runs [Close] when the confirmation fails, and [Close] is the
    only cleanup there is: it unsets the two variables and asks the instance
    to shut down over HTTP, but only when one more health probe is answered
    with 200.  After a timeout the instance does not answer, so the process
    that [Start] spawned is not terminated.  The emulator is started and
    never reachable; [Start] gives up at the deadline, [Close] unsets the
    variables, its probe fails, and [Start] returns the deadline error
    without having sent a shutdown request, in both versions. *)
Theorem Start_timeout_leaves_process_running :
  (exists e' w',
     EnvInit.Start (Scenario.unreachable Scenario.envInitLines) 30
       zeroEmulator (Scenario.boot ∅)
     = Ret (Some DeadlineExceeded) e' w' /\
     In (EvStart EnvInit.startArgs None) (log w') /\
     existsb isPost (log w') = false /\
     exists evs,
       log w' = evs ++ [EvDone;
                        EvUnsetenv "DATASTORE_EMULATOR_HOST";
                        EvUnsetenv "DATASTORE_PROJECT_ID";
                        EvRequest MethodGet Scenario.emulatorURL
                          (inl TransportError)]) /\
  (exists e' w',
     FixedHost.Start (Scenario.unreachable []) 160
       zeroEmulator (Scenario.boot ∅)
     = Ret (Some DeadlineExceeded) e' w' /\
     In (EvStart FixedHost.startArgs None) (log w') /\
     existsb isPost (log w') = false /\
     exists evs,
       log w' = evs ++ [EvDone;
                        EvUnsetenv "DATASTORE_EMULATOR_HOST";
                        EvUnsetenv "DATASTORE_PROJECT_ID";
                        EvRequest MethodGet
                          ("http://" +:+ FixedHost.defaultHost)
                          (inl TransportError)]).
Proof.
  split; eexists _, _; (split; [vm_compute; reflexivity|]);
    (split; [left; reflexivity|]); (split; [reflexivity|]);
    match goal with
    | |- exists evs, log ?w = _ =>
        exists (removelast (removelast (removelast (removelast (log w)))))
    end; vm_compute; reflexivity.
Qed.

(** ** What Start does to the environment *)

Section Frame.

Variable out : Outside.

Lemma Close_frame e w r e' w' k :
  Close out e w = Ret r e' w' -> ~ published k ->
  environ w' !! k = environ w !! k.
Proof.
  intros H Hk. destruct (stopOnClose e) eqn:Howned.
  - destruct (Close_owned_run out e w Howned)
      as (r0 & w0 & rest & Hclose & Henv & _).
    rewrite Hclose in H. inversion H; subst. rewrite Henv.
    rewrite !lookup_delete_ne; [reflexivity| |];
      intros <-; apply Hk; [now left | now right].
  - rewrite (Close_not_owned_run out e w Howned) in H. now inversion H.
Qed.

End Frame.

Lemma pollEvents_quiet (evs : list Event) :
  forallb isPollEvent evs = true ->
  existsb isSetenv evs = false /\ existsb isSpawn evs = false /\
  existsb isPost evs = false.
Proof.
  induction evs as [|ev evs IH]; [now repeat split|].
  cbn. intros [Hev Hevs]%andb_prop. destruct (IH Hevs) as (-> & -> & ->).
  destruct ev as [| |[|]| | | |]; try discriminate; now repeat split.
Qed.

Lemma setenvs_quiet (evs : list Event) :
  forallb isSetenv evs = true ->
  existsb isHealthyProbe evs = false /\ existsb isSpawn evs = false /\
  existsb isPost evs = false.
Proof.
  induction evs as [|ev evs IH]; [now repeat split|].
  cbn. intros [Hev Hevs]%andb_prop. destruct (IH Hevs) as (-> & -> & ->).
  destruct ev; try discriminate; now repeat split.
Qed.

Lemma unset_both (m : gmap string string) :
  delete "DATASTORE_PROJECT_ID" (delete "DATASTORE_EMULATOR_HOST" m)
    !! "DATASTORE_EMULATOR_HOST" = None /\
  delete "DATASTORE_PROJECT_ID" (delete "DATASTORE_EMULATOR_HOST" m)
    !! "DATASTORE_PROJECT_ID" = None.
Proof.
  split.
  - rewrite lookup_delete_ne by discriminate. apply lookup_delete_eq.
  - apply lookup_delete_eq.
Qed.

Lemma unset_frame (m : gmap string string) (k : string) :
  ~ published k ->
  delete "DATASTORE_PROJECT_ID" (delete "DATASTORE_EMULATOR_HOST" m) !! k
  = m !! k.
Proof.
  intros Hk. rewrite !lookup_delete_ne; [reflexivity| |];
    intros <-; apply Hk; [now left | now right].
Qed.

Section StartRuns.

Variable out : Outside.

(** Every run of [Start] of emulator.go that returns: variables other than
    the two published ones are untouched; and if it wrote a variable, then
    either it returns nil and a probe was answered with 200, or both
    published variables are unset when it returns. *)
Lemma EnvInit_Start_run fuel e w r e' w' :
  EnvInit.Start out fuel e w = Ret r e' w' ->
  (forall k, ~ published k -> environ w' !! k = environ w !! k) /\
  exists evs,
    log w' = log w ++ evs /\
    (existsb isSetenv evs = true ->
     (r = None /\ existsb isHealthyProbe evs = true) \/
     (environ w' !! "DATASTORE_EMULATOR_HOST" = None /\
      environ w' !! "DATASTORE_PROJECT_ID" = None)).
Proof.
  intros H. unfold EnvInit.Start, bind at 1 in H.
  destruct (EnvInit_instanceIsPresent_run out e w)
    as (present & e1 & w1 & d & Hp & Hlog1 & Henv1 & _ & Hpoll1 & _ & _ & He1).
  rewrite Hp in H.
  destruct (pollEvents_quiet d Hpoll1) as (Hq1 & _ & _).
  destruct present.
  { inversion H; subst. split; [now rewrite Henv1|].
    exists d. split; [assumption|]. rewrite Hq1. discriminate. }
  specialize (He1 eq_refl). subst e1.
  unfold bind at 1, setStopOnClose at 1 in H.
  unfold bind at 1, cmd_Start at 1 in H.
  destruct (cmdStart out (nexec w1) EnvInit.startArgs) as [err|] eqn:Hspawn.
  { inversion H; subst. cbn. split; [now rewrite Henv1|].
    eexists (d ++ [_]). rewrite Hlog1, <- app_assoc. split; [reflexivity|].
    rewrite existsb_app, Hq1. discriminate. }
  unfold bind at 1 in H. fold (owned e) in H.
  fold (spawned EnvInit.startArgs w1) in H.
  destruct (EnvInit.initEnv out (owned e) (spawned EnvInit.startArgs w1))
    as [ri e2 w2| |] eqn:Hinit; try discriminate.
  destruct (initEnv_run _ _ _ _ _ _ Hinit)
    as (Howned & _ & sets & Hlog2 & Hsets & Hfail & Hframe2).
  cbn in Howned, Hlog2, Hframe2.
  destruct ri as [err|].
  { destruct (Close_after_failure out e2 w2 err Howned)
      as (rc & w3 & rest & _ & Hseq & Henv3 & Hlog3 & _).
    rewrite Hseq in H. inversion H; subst. split.
    - intros k Hk. rewrite Henv3, unset_frame, Hframe2, Henv1 by tauto.
      reflexivity.
    - eexists. rewrite Hlog3, Hlog2, Hlog1, <- !app_assoc.
      split; [reflexivity|]. intros _. right. rewrite Henv3.
      apply unset_both. }
  unfold bind at 1 in H.
  destruct (confirmStartup out EnvInit.timeout fuel e2 w2)
    as [rc e3 w3| |] eqn:Hconfirm; try discriminate.
  destruct (confirmStartup_run _ _ _ _ _ _ _ _ Hconfirm)
    as (-> & Henv3 & _ & polled & Hlog3 & Hpoll3 & Hrc).
  destruct rc as [err|].
  - destruct (Close_after_failure out e2 w3 err Howned)
      as (rc & w4 & rest & _ & Hseq & Henv4 & Hlog4 & _).
    rewrite Hseq in H. inversion H; subst. split.
    + intros k Hk.
      rewrite Henv4, unset_frame, Henv3, Hframe2, Henv1 by tauto.
      reflexivity.
    + eexists. rewrite Hlog4, Hlog3, Hlog2, Hlog1, <- !app_assoc.
      split; [reflexivity|]. intros _. right. rewrite Henv4.
      apply unset_both.
  - inversion H; subst. split.
    + intros k Hk. rewrite Henv3, Hframe2, Henv1 by tauto. reflexivity.
    + eexists. rewrite Hlog3, Hlog2, Hlog1, <- !app_assoc.
      split; [reflexivity|]. intros _. left. split; [reflexivity|].
      rewrite !existsb_app, Hrc. cbn.
      now rewrite !orb_true_r.
Qed.

Lemma publishedAfterConfirm_true evs :
  publishedAfterConfirm true evs = true.
Proof.
  induction evs as [|ev evs IH]; [reflexivity|].
  cbn. now destruct (isSetenv ev).
Qed.

Lemma publishedAfterConfirm_quiet evs :
  existsb isSetenv evs = false ->
  forall confirmed evs',
    publishedAfterConfirm confirmed (evs ++ evs')
    = publishedAfterConfirm (confirmed || existsb isHealthyProbe evs) evs'.
Proof.
  induction evs as [|ev evs IH]; intros Hq confirmed evs'.
  - cbn. now rewrite orb_false_r.
  - cbn in Hq |- *. apply orb_false_elim in Hq as [-> Hq].
    rewrite (IH Hq). now rewrite orb_assoc.
Qed.

(** Every run of [Start] of part_000 that returns: variables other than
    the two published ones are untouched; a variable is written only
    after a probe was answered with 200, and only when nil is returned. *)
Lemma FixedHost_Start_run fuel e w r e' w' :
  FixedHost.Start out fuel e w = Ret r e' w' ->
  (forall k, ~ published k -> environ w' !! k = environ w !! k) /\
  exists evs,
    log w' = log w ++ evs /\
    publishedAfterConfirm false evs = true /\
    (existsb isSetenv evs = true ->
     r = None /\ existsb isHealthyProbe evs = true).
Proof.
  intros H. unfold FixedHost.Start, bind at 1 in H.
  destruct (FixedHost_instanceIsPresent_run out e w)
    as (present & e1 & w1 & d & Hp & Hlog1 & Henv1 & _ & Hpoll1 & _ & _ & He1).
  rewrite Hp in H.
  destruct (pollEvents_quiet d Hpoll1) as (Hq1 & _ & _).
  destruct present.
  { inversion H; subst. split; [now rewrite Henv1|].
    exists d. split; [assumption|]. rewrite Hq1. split; [|discriminate].
    rewrite <- (app_nil_r d), publishedAfterConfirm_quiet by assumption.
    reflexivity. }
  specialize (He1 eq_refl). subst e1.
  unfold bind at 1, setStopOnClose at 1 in H.
  unfold bind at 1, cmd_Start at 1 in H.
  destruct (cmdStart out (nexec w1) FixedHost.startArgs) as [err|] eqn:Hspawn.
  { inversion H; subst. cbn. split; [now rewrite Henv1|].
    eexists (d ++ [_]). rewrite Hlog1, <- app_assoc. split; [reflexivity|].
    rewrite existsb_app, Hq1.
    rewrite publishedAfterConfirm_quiet by assumption.
    split; [reflexivity | discriminate]. }
  unfold bind at 1, setHost at 1 in H.
  unfold bind at 1, setProjectID at 1 in H.
  unfold bind at 1 in H. cbn [Host ProjectID stopOnClose] in H.
  fold (spawned FixedHost.startArgs w1) in H.
  set (e2 := mkEmulator _ _ true) in H.
  destruct (confirmStartup out FixedHost.timeout fuel e2
              (spawned FixedHost.startArgs w1))
    as [rc e3 w3| |] eqn:Hconfirm; try discriminate.
  destruct (confirmStartup_run _ _ _ _ _ _ _ _ Hconfirm)
    as (-> & Henv3 & _ & polled & Hlog3 & Hpoll3 & Hrc).
  cbn in Henv3, Hlog3.
  destruct (pollEvents_quiet polled Hpoll3) as (Hq3 & _ & _).
  destruct rc as [err|].
  - destruct (Close_after_failure out e2 w3 err eq_refl)
      as (rc & w4 & rest & _ & Hseq & Henv4 & Hlog4 & Hq4 & _).
    rewrite Hseq in H. inversion H; subst. split.
    + intros k Hk. rewrite Henv4, unset_frame, Henv3, Henv1 by tauto.
      reflexivity.
    + eexists. rewrite Hlog4, Hlog3, Hlog1, <- !app_assoc.
      split; [reflexivity|].
      assert (Hq : existsb isSetenv
                     (d ++ [EvStart FixedHost.startArgs None] ++ polled ++
                      EvUnsetenv "DATASTORE_EMULATOR_HOST"
                      :: EvUnsetenv "DATASTORE_PROJECT_ID" :: rest) = false).
      { rewrite !existsb_app, Hq1, Hq3. cbn. exact Hq4. }
      rewrite Hq. split; [|discriminate].
      rewrite <- (app_nil_r (d ++ _)), publishedAfterConfirm_quiet
        by assumption.
      reflexivity.
  - unfold bind, os.Setenv, ret in H.
    replace (os.validSetenv "DATASTORE_EMULATOR_HOST" FixedHost.defaultHost)
      with true in H by reflexivity.
    replace (os.validSetenv "DATASTORE_PROJECT_ID" FixedHost.defaultProject)
      with true in H by reflexivity.
    inversion H; subst. cbn [environ emit withEnviron log]. split.
    + intros k Hk.
      rewrite !lookup_insert_ne, Henv3, Henv1; [reflexivity|..];
        intros <-; apply Hk; first [now left | now right].
    + eexists. rewrite Hlog3, Hlog1, <- !app_assoc.
      split; [reflexivity|]. split.
      * rewrite publishedAfterConfirm_quiet by assumption.
        change ([EvStart FixedHost.startArgs None] ++ polled ++ ?l)
          with ((EvStart FixedHost.startArgs None :: polled) ++ l).
        rewrite publishedAfterConfirm_quiet by (cbn; assumption).
        cbn [existsb isHealthyProbe]. rewrite Hrc.
        rewrite !orb_true_r. apply publishedAfterConfirm_true.
      * intros _. split; [reflexivity|].
        rewrite !existsb_app, Hrc. cbn. now rewrite !orb_true_r.
Qed.

End StartRuns.

(** ** Publication *)

(** C9, as the code has it.  part_000 writes the two variables only after a
    health probe has been answered with 200, and only on the way to
    returning nil.  emulator.go writes them in [initEnv], before
    [confirmStartup]; whenever [Start] then returns, either it returns nil
    and a probe was answered with 200 during the run, or both variables are
    unset again. *)
Theorem Start_publishes_confirmed_or_unsets
  (out : Outside) (fuel : nat) (e : Emulator) (w : World)
  (r : option error) (e' : Emulator) (w' : World) (evs : list Event) :
  (EnvInit.Start out fuel e w = Ret r e' w' ->
   log w' = log w ++ evs ->
   existsb isSetenv evs = true ->
   (r = None /\ existsb isHealthyProbe evs = true) \/
   (environ w' !! "DATASTORE_EMULATOR_HOST" = None /\
    environ w' !! "DATASTORE_PROJECT_ID" = None)) /\
  (FixedHost.Start out fuel e w = Ret r e' w' ->
   log w' = log w ++ evs ->
   publishedAfterConfirm false evs = true /\
   (existsb isSetenv evs = true ->
    r = None /\ existsb isHealthyProbe evs = true)).
Proof.
  split; intros Hrun Hlog.
  - destruct (EnvInit_Start_run _ _ _ _ _ _ _ Hrun) as (_ & evs' & Hlog' & H).
    rewrite Hlog in Hlog'. apply app_inv_head in Hlog'. now subst.
  - destruct (FixedHost_Start_run _ _ _ _ _ _ _ Hrun) as (_ & evs' & Hlog' & H).
    rewrite Hlog in Hlog'. apply app_inv_head in Hlog'. now subst.
Qed.

Lemma Start_publishes_confirmed_or_unsets_witness :
  (exists r e' w' evs,
     EnvInit.Start (Scenario.unreachable Scenario.envInitLines) 30
       zeroEmulator (Scenario.boot ∅) = Ret r e' w' /\
     log w' = [] ++ evs /\
     existsb isSetenv evs = true /\
     ((r = None /\ existsb isHealthyProbe evs = true) \/
      (environ w' !! "DATASTORE_EMULATOR_HOST" = None /\
       environ w' !! "DATASTORE_PROJECT_ID" = None))) /\
  (exists r e' w' evs,
     FixedHost.Start (Scenario.booting 1 []) 30
       zeroEmulator (Scenario.boot ∅) = Ret r e' w' /\
     log w' = [] ++ evs /\
     publishedAfterConfirm false evs = true /\
     (existsb isSetenv evs = true ->
      r = None /\ existsb isHealthyProbe evs = true)).
Proof.
  split.
  - eexists _, _, _, _.
    split; [vm_compute; reflexivity|].
    split; [vm_compute; reflexivity|].
    split; [vm_compute; reflexivity|].
    eapply (proj1 (Start_publishes_confirmed_or_unsets
                     (Scenario.unreachable Scenario.envInitLines) 30
                     zeroEmulator (Scenario.boot ∅) _ _ _ _)).
    + vm_compute. reflexivity.
    + vm_compute. reflexivity.
    + vm_compute. reflexivity.
  - eexists _, _, _, _.
    split; [vm_compute; reflexivity|].
    split; [vm_compute; reflexivity|].
    eapply (proj2 (Start_publishes_confirmed_or_unsets
                     (Scenario.booting 1 []) 30
                     zeroEmulator (Scenario.boot ∅) _ _ _ _)).
    + vm_compute. reflexivity.
    + vm_compute. reflexivity.
Defined.


(** C9, as the claim has it, fails for emulator.go: the emulator answers
    its second probe; the two variables are written right after [env-init],
    before the first probe, and [Start] returns nil. *)
Lemma Start_publishes_before_confirmation :
  exists e' w',
    EnvInit.Start (Scenario.booting 1 Scenario.envInitLines) 30
      zeroEmulator (Scenario.boot ∅) = Ret None e' w' /\
    log w'
    = [ EvStart EnvInit.startArgs None;
        EvRun (command ["env-init"]);
        EvSetenv "DATASTORE_EMULATOR_HOST" "localhost:8081";
        EvSetenv "DATASTORE_PROJECT_ID" "demo";
        EvTick;
        EvRequest MethodGet "http://localhost:8081" (inl TransportError);
        EvTick;
        EvRequest MethodGet "http://localhost:8081" (inr 200) ] /\
    publishedAfterConfirm false (log w') = false.
Proof.
  eexists _, _. split; [vm_compute; reflexivity|]. split; reflexivity.
Qed.

(** ** Publication and discovery use different variables *)

(** C10.  [Start] writes DATASTORE_EMULATOR_HOST (and DATASTORE_PROJECT_ID)
    and never touches any other variable, while discovery reads
    DATASTORE_HOST.  So from an environment without DATASTORE_HOST, after
    any run of [Start] that returns, DATASTORE_HOST is still missing, and
    the discovery of a later [Start], on any handle and whatever the outside
    does, returns false at once, without a probe. *)
Theorem published_host_is_not_discovered
  (out : Outside) (fuel : nat) (e : Emulator) (w : World)
  (r : option error) (e' : Emulator) (w' : World) :
  EnvInit.Start out fuel e w = Ret r e' w' \/
  FixedHost.Start out fuel e w = Ret r e' w' ->
  os.lookupEnv w "DATASTORE_HOST" = "" ->
  (forall k, ~ published k -> environ w' !! k = environ w !! k) /\
  ~ published "DATASTORE_HOST" /\
  os.lookupEnv w' "DATASTORE_HOST" = "" /\
  forall out2 e2,
    EnvInit.instanceIsPresent out2 e2 w' = Ret false e2 w' /\
    FixedHost.instanceIsPresent out2 e2 w' = Ret false e2 w'.
Proof.
  intros Hrun Hunset.
  assert (Hframe : forall k, ~ published k ->
                     environ w' !! k = environ w !! k).
  { destruct Hrun as [Hrun | Hrun].
    - now destruct (EnvInit_Start_run _ _ _ _ _ _ _ Hrun).
    - now destruct (FixedHost_Start_run _ _ _ _ _ _ _ Hrun). }
  assert (Hne : ~ published "DATASTORE_HOST") by (intros [H | H]; discriminate).
  assert (Hunset' : os.lookupEnv w' "DATASTORE_HOST" = "").
  { unfold os.lookupEnv in *. now rewrite (Hframe _ Hne). }
  split; [assumption|]. split; [assumption|]. split; [assumption|].
  intros out2 e2.
  unfold EnvInit.instanceIsPresent, FixedHost.instanceIsPresent, bind,
    os.Getenv.
  now rewrite Hunset'.
Qed.

Lemma published_host_is_not_discovered_witness :
  (exists r e' w',
     EnvInit.Start (Scenario.booting 0 Scenario.envInitLines) 30
       zeroEmulator (Scenario.boot ∅) = Ret r e' w' /\
     os.lookupEnv w' "DATASTORE_EMULATOR_HOST" = "localhost:8081" /\
     (forall k, ~ published k ->
                environ w' !! k = environ (Scenario.boot ∅) !! k) /\
     ~ published "DATASTORE_HOST" /\
     os.lookupEnv w' "DATASTORE_HOST" = "" /\
     forall out2 e2,
       EnvInit.instanceIsPresent out2 e2 w' = Ret false e2 w' /\
       FixedHost.instanceIsPresent out2 e2 w' = Ret false e2 w') /\
  (exists r e' w',
     FixedHost.Start (Scenario.booting 0 []) 30
       zeroEmulator (Scenario.boot ∅) = Ret r e' w' /\
     os.lookupEnv w' "DATASTORE_EMULATOR_HOST" = "localhost:8088" /\
     (forall k, ~ published k ->
                environ w' !! k = environ (Scenario.boot ∅) !! k) /\
     ~ published "DATASTORE_HOST" /\
     os.lookupEnv w' "DATASTORE_HOST" = "" /\
     forall out2 e2,
       EnvInit.instanceIsPresent out2 e2 w' = Ret false e2 w' /\
       FixedHost.instanceIsPresent out2 e2 w' = Ret false e2 w').
Proof.
  split.
  - eexists _, _, _.
    split; [vm_compute; reflexivity|].
    split; [vm_compute; reflexivity|].
    eapply (published_host_is_not_discovered
              (Scenario.booting 0 Scenario.envInitLines) 30
              zeroEmulator (Scenario.boot ∅)).
    + left. vm_compute. reflexivity.
    + vm_compute. reflexivity.
  - eexists _, _, _.
    split; [vm_compute; reflexivity|].
    split; [vm_compute; reflexivity|].
    eapply (published_host_is_not_discovered
              (Scenario.booting 0 []) 30
              zeroEmulator (Scenario.boot ∅)).
    + right. vm_compute. reflexivity.
    + vm_compute. reflexivity.
Defined.

(** ** Timing of the polling loop *)

Lemma pollingRate_ns : pollingRate = 200000000.
Proof. reflexivity. Qed.

Ltac ticks :=
  unfold tickedBetween, nextTick, ticksUpTo in *;
  rewrite ?pollingRate_ns in *;
  Z.div_mod_to_equations; lia.

Section Timing.

Variable out : Outside.
Variable timeout : Z.

(** One turn of the loop. *)
Lemma poll_done fuel t0 buffered e w w1 :
  select out timeout t0 buffered e w = Ret CaseDone e w1 ->
  poll out timeout (S fuel) t0 buffered e w
  = Ret (Some DeadlineExceeded) e (emit EvDone w1).
Proof.
  intros H. cbn [poll]. unfold bind at 1. now rewrite H.
Qed.

Lemma poll_tick_healthy fuel t0 buffered e w w1 w2 :
  select out timeout t0 buffered e w = Ret CaseTick e w1 ->
  isHealthy out e (emit EvTick w1) = Ret true e w2 ->
  poll out timeout (S fuel) t0 buffered e w = Ret None e w2.
Proof.
  intros H1 H2. cbn [poll]. unfold bind at 1. rewrite H1.
  unfold bind at 1, trace at 1. unfold bind at 1, now at 1.
  unfold bind at 1. now rewrite H2.
Qed.

Lemma poll_tick_unhealthy fuel t0 buffered e w w1 w2 :
  select out timeout t0 buffered e w = Ret CaseTick e w1 ->
  isHealthy out e (emit EvTick w1) = Ret false e w2 ->
  poll out timeout (S fuel) t0 buffered e w
  = poll out timeout fuel t0 (tickedBetween t0 (clock w1) (clock w2)) e w2.
Proof.
  intros H1 H2. cbn [poll]. unfold bind at 1. rewrite H1.
  unfold bind at 1, trace at 1. unfold bind at 1, now at 1.
  unfold bind at 1. rewrite H2. reflexivity.
Qed.

(** Before the deadline the next tick is taken, at its time. *)
Lemma select_tick t0 buffered e w :
  clock w < t0 + timeout ->
  (buffered = false -> nextTick t0 (clock w) < t0 + timeout) ->
  select out timeout t0 buffered e w
  = Ret CaseTick e
      (if buffered then w else withClock (nextTick t0 (clock w)) w).
Proof.
  intros Hc Hn. unfold select.
  destruct (t0 + timeout <=? clock w) eqn:Hd; [lia|].
  destruct buffered; [reflexivity|].
  destruct (nextTick t0 (clock w) <? t0 + timeout) eqn:Hlt; [reflexivity|].
  specialize (Hn eq_refl). lia.
Qed.

(** When the deadline is preferred, [select] takes a tick only before the
    deadline, and the deadline no later than it must. *)
Lemma select_prefers_deadline t0 buffered e w :
  prefersDeadline out ->
  exists c w1,
    select out timeout t0 buffered e w = Ret c e w1 /\
    nreq w1 = nreq w /\
    match c with
    | CaseTick =>
        clock w < t0 + timeout /\
        w1 = (if buffered then w else withClock (nextTick t0 (clock w)) w) /\
        clock w1 < t0 + timeout
    | CaseDone => clock w1 = Z.max (clock w) (t0 + timeout)
    end.
Proof.
  intros Hpref. unfold select, contested. rewrite !Hpref.
  destruct (t0 + timeout <=? clock w) eqn:Hd.
  - destruct buffered; exists CaseDone; eexists;
      (split; [reflexivity|]); split; try reflexivity; cbn; lia.
  - destruct buffered.
    + exists CaseTick; eexists. split; [reflexivity|]. split; [reflexivity|].
      repeat split; lia.
    + destruct (nextTick t0 (clock w) <? t0 + timeout) eqn:Hlt.
      * exists CaseTick; eexists. split; [reflexivity|]. split; [reflexivity|].
        repeat split; cbn; lia.
      * destruct (t0 + timeout <? nextTick t0 (clock w));
          exists CaseDone; eexists; (split; [reflexivity|]);
          split; try reflexivity; cbn; lia.
Qed.

(** A failing probe takes no longer than a request may. *)
Lemma isHealthy_false_timed e w :
  withinRequestTimeout out ->
  answers200 out (nreq w) MethodGet (Host e +:+ healthcheckEndpoint) = false ->
  exists w',
    isHealthy out e w = Ret false e w' /\
    clock w <= clock w' <= clock w + pollingRate.
Proof.
  intros Htime Hprobe.
  destruct (isHealthy_false out e w Hprobe) as (w' & Hh & [-> | [_ ->]]).
  - exists w. split; [assumption|]. rewrite pollingRate_ns. lia.
  - eexists. split; [eassumption|]. cbn.
    specialize (Htime (nreq w) MethodGet (Host e +:+ healthcheckEndpoint)).
    lia.
Qed.

(** With no healthy answer, requests within their timeout and the deadline
    preferred, the loop ends with the deadline error, no earlier than the
    deadline and less than one polling interval after it.  The fuel needed
    is the number of ticks still to come before the deadline. *)
Lemma poll_times_out fuel :
  forall (t0 : Z) (buffered : bool) (e : Emulator) (w : World),
    neverHealthy out e -> prefersDeadline out -> withinRequestTimeout out ->
    t0 <= clock w <= t0 + timeout + pollingRate ->
    (Z.to_nat (timeout / pollingRate + (if buffered then 1 else 0)
               - ticksUpTo t0 (clock w)) < fuel)%nat ->
    exists w',
      poll out timeout fuel t0 buffered e w
      = Ret (Some DeadlineExceeded) e w' /\
      t0 + timeout <= clock w' <= t0 + timeout + pollingRate.
Proof.
  induction fuel as [|fuel IH];
    intros t0 buffered e w Hnever Hpref Htime Hclock Hfuel; [lia|].
  destruct (select_prefers_deadline t0 buffered e w Hpref)
    as (c & w1 & Hsel & Hreq & Hc).
  destruct c.
  - destruct Hc as (Hbefore & Hw1 & Hbefore1).
    assert (Hprobe : answers200 out (nreq (emit EvTick w1)) MethodGet
                       (Host e +:+ healthcheckEndpoint) = false)
      by apply Hnever.
    destruct (isHealthy_false_timed e (emit EvTick w1) Htime Hprobe)
      as (w2 & Hh & Hclock2). cbn in Hclock2.
    rewrite (poll_tick_unhealthy _ _ _ _ _ _ _ Hsel Hh).
    apply IH; try assumption.
    + rewrite pollingRate_ns in *. destruct buffered; subst w1; cbn in *;
        ticks.
    + destruct buffered; subst w1; cbn in *;
        destruct (tickedBetween t0 _ (clock w2)) eqn:Hticked;
        ticks.
  - rewrite (poll_done _ _ _ _ _ _ Hsel). eexists. split; [reflexivity|].
    cbn. rewrite pollingRate_ns in *. lia.
Qed.

(** With no healthy answer the loop can only end with the deadline error,
    once the deadline has passed. *)
Lemma poll_unconfirmed fuel :
  forall t0 buffered e w r e' w',
    neverHealthy out e ->
    poll out timeout fuel t0 buffered e w = Ret r e' w' ->
    r = Some DeadlineExceeded /\ t0 + timeout <= clock w'.
Proof.
  induction fuel as [|fuel IH]; intros t0 buffered e w r e' w' Hnever Hrun;
    [discriminate|].
  destruct (select_run out timeout t0 buffered e w)
    as (c & w1 & Hsel & _ & _ & _ & _ & Hdone).
  destruct c.
  - destruct (isHealthy_run out e (emit EvTick w1))
      as (healthy & w2 & evs & Hh & Hanswer & _).
    rewrite Hnever in Hanswer. subst healthy.
    rewrite (poll_tick_unhealthy _ _ _ _ _ _ _ Hsel Hh) in Hrun.
    now apply IH in Hrun.
  - rewrite (poll_done _ _ _ _ _ _ Hsel) in Hrun. inversion Hrun; subst.
    split; [reflexivity|]. now apply Hdone.
Qed.

Lemma isHealthy_sent e w :
  newRequest out MethodGet (Host e +:+ healthcheckEndpoint) = None ->
  isHealthy out e w
  = Ret (answers200 out (nreq w) MethodGet (Host e +:+ healthcheckEndpoint))
      e (answered out MethodGet (Host e +:+ healthcheckEndpoint) w).
Proof.
  intros Hnew. unfold isHealthy, bind, request, answers200, answered.
  rewrite Hnew. destruct (resp _) as [err|code]; [reflexivity|].
  now destruct (code =? 200).
Qed.

(** In the state the loop is in after [j] ticks, with more ticks to come
    before the deadline, [select] takes tick [j + 1] at its time. *)
Lemma next_tick_taken t0 (buffered : bool) e w (j more : Z) :
  0 <= j -> 0 <= more ->
  pollingRate * (j + 1 + more) < timeout ->
  (if buffered then clock w = t0 + pollingRate * (j + 1)
   else t0 + pollingRate * j <= clock w < t0 + pollingRate * (j + 1)) ->
  exists w1,
    select out timeout t0 buffered e w = Ret CaseTick e w1 /\
    nreq w1 = nreq w /\
    clock w1 = t0 + pollingRate * (j + 1).
Proof.
  intros Hj Hmore Hbefore Hstate.
  exists (if buffered then w else withClock (nextTick t0 (clock w)) w).
  split; [|split].
  - apply select_tick; destruct buffered; try discriminate; ticks.
  - now destruct buffered.
  - destruct buffered; cbn; ticks.
Qed.

(** If the probes before the k-th fail and the k-th is answered with 200,
    requests take no longer than they may, and tick k+1 comes before the
    deadline, the loop returns nil when that answer arrives.  [j] counts
    the ticks taken so far. *)
Lemma poll_confirms k :
  forall (fuel : nat) (t0 : Z) (buffered : bool) (e : Emulator) (w : World)
         (j : Z),
    (k < fuel)%nat -> withinRequestTimeout out -> 0 <= j ->
    pollingRate * (j + 1 + Z.of_nat k) < timeout ->
    (if buffered then clock w = t0 + pollingRate * (j + 1)
     else t0 + pollingRate * j <= clock w < t0 + pollingRate * (j + 1)) ->
    (forall i, (i < k)%nat ->
       answers200 out (nreq w + i) MethodGet
         (Host e +:+ healthcheckEndpoint) = false) ->
    answers200 out (nreq w + k) MethodGet (Host e +:+ healthcheckEndpoint)
    = true ->
    exists w',
      poll out timeout fuel t0 buffered e w = Ret None e w' /\
      clock w'
      = t0 + pollingRate * (j + 1 + Z.of_nat k)
        + took (roundTrip out (nreq w + k) MethodGet
                  (Host e +:+ healthcheckEndpoint)).
Proof.
  induction k as [|k IH];
    intros fuel t0 buffered e w j Hfuel Htime Hj Hbefore Hstate Hfail Hok;
    (destruct fuel as [|fuel]; [lia|]).
  - rewrite Nat.add_0_r in Hok.
    destruct (next_tick_taken t0 buffered e w j (Z.of_nat 0))
      as (w1 & Hsel & Hreq1 & Hclock1); try assumption; try lia.
    eexists. split.
    + eapply poll_tick_healthy; [eassumption|].
      apply isHealthy_true. cbn. now rewrite Hreq1.
    + unfold answered. cbn [clock nreq emit withClock nextReq].
      rewrite Hreq1, Hclock1, Nat.add_0_r, pollingRate_ns. lia.
  - pose proof (answers200_resp _ _ _ _ Hok) as [Hnew _].
    destruct (next_tick_taken t0 buffered e w j (Z.of_nat (S k)))
      as (w1 & Hsel & Hreq1 & Hclock1); try assumption; try lia.
    pose proof (isHealthy_sent e (emit EvTick w1) Hnew) as Hh.
    cbn [nreq emit] in Hh. rewrite Hreq1 in Hh.
    rewrite <- (Nat.add_0_r (nreq w)), Hfail in Hh by lia.
    rewrite (poll_tick_unhealthy _ _ _ _ _ _ _ Hsel Hh).
    set (w2 := answered out MethodGet _ (emit EvTick w1)).
    assert (Hreq2 : nreq w2 = S (nreq w)) by (cbn; now rewrite Hreq1).
    assert (Hclock2 : clock w1 <= clock w2 <= clock w1 + pollingRate).
    { cbn. specialize (Htime (nreq w1) MethodGet
                         (Host e +:+ healthcheckEndpoint)). lia. }
    destruct (IH fuel t0 (tickedBetween t0 (clock w1) (clock w2)) e w2
                (j + 1)) as (w' & Hrun & Hclock'); try assumption; try lia.
    + destruct (tickedBetween t0 (clock w1) (clock w2)) eqn:Hticked; ticks.
    + intros i Hi. rewrite Hreq2, Nat.add_succ_comm. apply Hfail. lia.
    + now rewrite Hreq2, Nat.add_succ_comm.
    + exists w'. split; [assumption|].
      rewrite Hclock', Hreq2, Nat.add_succ_comm. lia.
Qed.

(** More fuel does not change what a run returns. *)
Lemma poll_more_fuel fuel :
  forall fuel' t0 buffered e w r e' w',
    (fuel <= fuel')%nat ->
    poll out timeout fuel t0 buffered e w = Ret r e' w' ->
    poll out timeout fuel' t0 buffered e w = Ret r e' w'.
Proof.
  induction fuel as [|fuel IH];
    intros fuel' t0 buffered e w r e' w' Hle Hrun; [discriminate|].
  destruct fuel' as [|fuel']; [lia|].
  destruct (select_run out timeout t0 buffered e w)
    as (c & w1 & Hsel & _).
  destruct c.
  - destruct (isHealthy_run out e (emit EvTick w1))
      as (healthy & w2 & evs & Hh & _).
    destruct healthy.
    + rewrite (poll_tick_healthy _ _ _ _ _ _ _ Hsel Hh) in Hrun.
      now rewrite (poll_tick_healthy _ _ _ _ _ _ _ Hsel Hh).
    + rewrite (poll_tick_unhealthy _ _ _ _ _ _ _ Hsel Hh) in Hrun.
      rewrite (poll_tick_unhealthy _ _ _ _ _ _ _ Hsel Hh).
      apply IH with (fuel' := fuel') in Hrun; [assumption | lia].
  - rewrite (poll_done _ _ _ _ _ _ Hsel) in Hrun.
    now rewrite (poll_done _ _ _ _ _ _ Hsel).
Qed.

(** A probe that is back in less than one polling interval. *)
Lemma isHealthy_fast e w :
  fasterThanTick out ->
  exists healthy w',
    isHealthy out e w = Ret healthy e w' /\
    clock w <= clock w' < clock w + pollingRate /\
    (nreq w' <= S (nreq w))%nat.
Proof.
  intros Hfast.
  specialize (Hfast (nreq w) MethodGet (Host e +:+ healthcheckEndpoint)).
  destruct (answers200 out (nreq w) MethodGet (Host e +:+ healthcheckEndpoint))
    eqn:Hprobe.
  - rewrite (isHealthy_true _ _ _ Hprobe). eexists _, _.
    split; [reflexivity|]. cbn. split; lia.
  - destruct (isHealthy_false _ _ _ Hprobe) as (w' & -> & [-> | [_ ->]]);
      eexists _, _; (split; [reflexivity|]); cbn;
      rewrite pollingRate_ns in *; split; lia.
Qed.

(** The loop between tick [j] and tick [j + 1], no tick waiting: [select]
    takes tick [j + 1] if it comes no later than the deadline (when the two
    coincide, either may win), or else the deadline, less than one polling
    interval after it has passed. *)
Lemma select_between_ticks t0 e w (j : Z) :
  0 <= j -> pollingRate * j <= timeout ->
  t0 + pollingRate * j <= clock w < t0 + pollingRate * (j + 1) ->
  exists c w1,
    select out timeout t0 false e w = Ret c e w1 /\
    nreq w1 = nreq w /\
    match c with
    | CaseTick =>
        clock w1 = t0 + pollingRate * (j + 1) /\
        pollingRate * (j + 1) <= timeout
    | CaseDone =>
        t0 + timeout <= clock w1 < t0 + timeout + pollingRate
    end.
Proof.
  intros Hj Hbefore Hstate. unfold select, contested.
  assert (Hnext : nextTick t0 (clock w) = t0 + pollingRate * (j + 1))
    by ticks.
  rewrite Hnext. rewrite pollingRate_ns in *.
  destruct (t0 + timeout <=? clock w) eqn:Hd.
  { exists CaseDone; eexists. split; [reflexivity|].
    split; [reflexivity|]. lia. }
  destruct (t0 + 200000000 * (j + 1) <? t0 + timeout) eqn:Hlt.
  { exists CaseTick; eexists. split; [reflexivity|].
    split; [reflexivity|]. cbn. lia. }
  destruct (t0 + timeout <? t0 + 200000000 * (j + 1)) eqn:Hgt.
  { exists CaseDone; eexists. split; [reflexivity|].
    split; [reflexivity|]. cbn. lia. }
  destruct (selectTick out _).
  - exists CaseTick; eexists. split; [reflexivity|].
    split; [reflexivity|]. cbn. lia.
  - exists CaseDone; eexists. split; [reflexivity|].
    split; [reflexivity|]. cbn. lia.
Qed.

(** When every request is back in less than one polling interval, a probe
    that starts on a tick ends before the next one, so no tick is ever left
    waiting in the channel.  Whatever [select] picks when a tick falls on
    the deadline, the loop then ends after at most one probe per tick up to
    the deadline, and an error comes at the deadline or less than one
    polling interval after it.  [j] counts the ticks taken so far. *)
Lemma poll_fast fuel :
  forall (t0 : Z) (e : Emulator) (w : World) (j : Z),
    fasterThanTick out -> 0 <= j -> pollingRate * j <= timeout ->
    t0 + pollingRate * j <= clock w < t0 + pollingRate * (j + 1) ->
    (Z.to_nat (timeout / pollingRate - j) < fuel)%nat ->
    exists r w',
      poll out timeout fuel t0 false e w = Ret r e w' /\
      (nreq w' - nreq w <= Z.to_nat (timeout / pollingRate - j))%nat /\
      match r with
      | None => True
      | Some err =>
          err = DeadlineExceeded /\
          t0 + timeout <= clock w' < t0 + timeout + pollingRate
      end.
Proof.
  induction fuel as [|fuel IH];
    intros t0 e w j Hfast Hj Hbefore Hstate Hfuel; [lia|].
  destruct (select_between_ticks t0 e w j Hj Hbefore Hstate)
    as (c & w1 & Hsel & Hreq1 & Hc).
  destruct c.
  - destruct Hc as [Hclock1 Hnext].
    assert (Hroom : j + 1 <= timeout / pollingRate)
      by (rewrite pollingRate_ns in *; Z.div_mod_to_equations; lia).
    destruct (isHealthy_fast e (emit EvTick w1) Hfast)
      as (healthy & w2 & Hh & Hclock2 & Hreq2).
    cbn in Hclock2, Hreq2. rewrite Hreq1 in Hreq2.
    destruct healthy.
    + rewrite (poll_tick_healthy _ _ _ _ _ _ _ Hsel Hh).
      exists None, w2. split; [reflexivity|]. split; [lia | exact I].
    + rewrite (poll_tick_unhealthy _ _ _ _ _ _ _ Hsel Hh).
      replace (tickedBetween t0 (clock w1) (clock w2)) with false
        by (symmetry; apply Z.ltb_ge; ticks).
      destruct (IH t0 e w2 (j + 1)) as (r & w' & Hrun & Hreq & Hr);
        try assumption; try lia.
      exists r, w'. split; [assumption|]. split; [lia | assumption].
  - rewrite (poll_done _ _ _ _ _ _ Hsel).
    exists (Some DeadlineExceeded), (emit EvDone w1).
    split; [reflexivity|]. cbn. split; [lia|]. now split.
Qed.

(** The same for every run that returns, whatever its fuel. *)
Lemma poll_fast_run fuel t0 e w r e' w' :
  fasterThanTick out -> 0 <= timeout ->
  t0 <= clock w < t0 + pollingRate ->
  poll out timeout fuel t0 false e w = Ret r e' w' ->
  (nreq w' - nreq w <= Z.to_nat (timeout / pollingRate))%nat /\
  (r <> None -> t0 + timeout <= clock w' < t0 + timeout + pollingRate).
Proof.
  intros Hfast Hlong Hstate Hrun.
  set (enough := S (Z.to_nat (timeout / pollingRate))).
  destruct (poll_fast (Nat.max fuel enough) t0 e w 0)
    as (r0 & w0 & Hrun0 & Hreq & Hr); try assumption;
    try (subst enough; rewrite ?pollingRate_ns in *; lia).
  apply poll_more_fuel with (fuel' := Nat.max fuel enough) in Hrun; [|lia].
  rewrite Hrun in Hrun0. inversion Hrun0; subst r0 w0.
  rewrite Z.sub_0_r in Hreq. split; [assumption|].
  intros Hnot. destruct r as [err|]; [|contradiction]. now destruct Hr.
Qed.

End Timing.

(** C7, as the code has it.  Let the overall timeout be at least one
    polling interval and every request be back within its own timeout.

    If every health request fails, a run of the loop that ends returns the
    deadline error, no earlier than the overall timeout (so no earlier than
    one polling interval) after the call.  The loop does end, no later than
    the overall timeout plus one polling interval after the call, in each of
    two cases: when every [select] that finds both channels ready takes the
    deadline; and, whatever [select] picks, when every request is back in
    less than one polling interval, and then the error comes less than one
    polling interval after the overall timeout.  What is left out is a tick
    that waits in the channel because a request lasted its whole polling
    interval, and that [select] takes although the deadline is ready.

    If the probes before the k-th fail, the k-th is answered with 200 and
    tick k+1 comes before the deadline, the loop returns nil, at the time
    that answer arrives. *)
Theorem confirmStartup_timing
  (out : Outside) (timeout : Z) (e : Emulator) (w : World) :
  pollingRate <= timeout ->
  withinRequestTimeout out ->
  (neverHealthy out e ->
   (forall fuel r e' w',
      confirmStartup out timeout fuel e w = Ret r e' w' ->
      r = Some DeadlineExceeded /\
      clock w + pollingRate <= clock w' /\
      clock w + timeout <= clock w') /\
   (prefersDeadline out ->
    forall fuel,
      (Z.to_nat (timeout / pollingRate) < fuel)%nat ->
      exists w',
        confirmStartup out timeout fuel e w
        = Ret (Some DeadlineExceeded) e w' /\
        clock w' <= clock w + timeout + pollingRate) /\
   (fasterThanTick out ->
    forall fuel,
      (Z.to_nat (timeout / pollingRate) < fuel)%nat ->
      exists w',
        confirmStartup out timeout fuel e w
        = Ret (Some DeadlineExceeded) e w' /\
        clock w' < clock w + timeout + pollingRate)) /\
  (forall k fuel,
     (k < fuel)%nat ->
     pollingRate * (Z.of_nat k + 1) < timeout ->
     (forall i, (i < k)%nat ->
        answers200 out (nreq w + i) MethodGet
          (Host e +:+ healthcheckEndpoint) = false) ->
     answers200 out (nreq w + k) MethodGet (Host e +:+ healthcheckEndpoint)
     = true ->
     exists w',
       confirmStartup out timeout fuel e w = Ret None e w' /\
       clock w'
       = clock w + pollingRate * (Z.of_nat k + 1)
         + took (roundTrip out (nreq w + k) MethodGet
                   (Host e +:+ healthcheckEndpoint))).
Proof.
  intros Hlong Htime. unfold confirmStartup, bind, now. split.
  - intros Hnever. split; [|split].
    + intros fuel r e' w' Hrun.
      destruct (poll_unconfirmed _ _ _ _ _ _ _ _ _ _ Hnever Hrun) as [-> Hclock].
      split; [reflexivity|]. lia.
    + intros Hpref fuel Hfuel.
      destruct (poll_times_out out timeout fuel (clock w) false e w)
        as (w' & Hrun & Hclock); try assumption.
      * rewrite pollingRate_ns in *. lia.
      * replace (ticksUpTo (clock w) (clock w)) with 0 by ticks.
        now rewrite Z.add_0_r, Z.sub_0_r.
      * exists w'. split; [assumption|]. lia.
    + intros Hfast fuel Hfuel.
      destruct (poll_fast out timeout fuel (clock w) e w 0)
        as (r & w' & Hrun & _ & Hr); try assumption;
        try (rewrite ?pollingRate_ns in *; lia).
      destruct (poll_unconfirmed _ _ _ _ _ _ _ _ _ _ Hnever Hrun) as [-> _].
      exists w'. split; [assumption|]. lia.
  - intros k fuel Hfuel Hbefore Hfail Hok.
    destruct (poll_confirms out timeout k fuel (clock w) false e w 0)
      as (w' & Hrun & Hclock); try assumption;
      try (rewrite pollingRate_ns in *; lia).
    exists w'. split; [assumption|]. rewrite Hclock.
    rewrite pollingRate_ns. lia.
Qed.

Lemma confirmStartup_timing_witness :
  (exists r e' w',
     confirmStartup (Scenario.unreachable []) EnvInit.timeout 26
       Scenario.launched (Scenario.boot ∅) = Ret r e' w' /\
     r = Some DeadlineExceeded /\
     clock (Scenario.boot ∅) + pollingRate <= clock w' /\
     clock (Scenario.boot ∅) + EnvInit.timeout <= clock w') /\
  (exists w',
     confirmStartup (Scenario.unreachable []) EnvInit.timeout 26
       Scenario.launched (Scenario.boot ∅)
     = Ret (Some DeadlineExceeded) Scenario.launched w' /\
     clock w' <= clock (Scenario.boot ∅) + EnvInit.timeout + pollingRate) /\
  (exists w',
     confirmStartup (Scenario.eager []) EnvInit.timeout 26
       Scenario.launched (Scenario.boot ∅)
     = Ret (Some DeadlineExceeded) Scenario.launched w' /\
     clock w' < clock (Scenario.boot ∅) + EnvInit.timeout + pollingRate) /\
  (exists w',
     confirmStartup (Scenario.booting 3 []) FixedHost.timeout 4
       Scenario.launched (Scenario.boot ∅)
     = Ret None Scenario.launched w' /\
     clock w'
     = clock (Scenario.boot ∅) + pollingRate * (Z.of_nat 3 + 1)
       + time.Millisecond).
Proof.
  assert (Hlong : pollingRate <= EnvInit.timeout)
    by (vm_compute; discriminate).
  assert (Htime : withinRequestTimeout (Scenario.unreachable []))
    by (intros n method url; vm_compute; split; discriminate).
  assert (Hnever : neverHealthy (Scenario.unreachable []) Scenario.launched)
    by (intros n; reflexivity).
  assert (Htime' : withinRequestTimeout (Scenario.eager []))
    by (intros n method url; vm_compute; split; discriminate).
  assert (Hnever' : neverHealthy (Scenario.eager []) Scenario.launched)
    by (intros n; reflexivity).
  split; [|split; [|split]].
  - eexists _, _, _. split; [vm_compute; reflexivity|].
    eapply (proj1 (proj1 (confirmStartup_timing (Scenario.unreachable [])
                            EnvInit.timeout Scenario.launched
                            (Scenario.boot ∅) Hlong Htime) Hnever) 26%nat).
    vm_compute. reflexivity.
  - refine (proj1 (proj2 (proj1 (confirmStartup_timing
                                   (Scenario.unreachable [])
                                   EnvInit.timeout Scenario.launched
                                   (Scenario.boot ∅) Hlong Htime) Hnever))
              _ 26%nat _).
    + intros n. reflexivity.
    + vm_compute. lia.
  - refine (proj2 (proj2 (proj1 (confirmStartup_timing
                                   (Scenario.eager [])
                                   EnvInit.timeout Scenario.launched
                                   (Scenario.boot ∅) Hlong Htime') Hnever'))
              _ 26%nat _).
    + intros n method url. vm_compute. split; [discriminate | reflexivity].
    + vm_compute. lia.
  - refine (proj2 (confirmStartup_timing (Scenario.booting 3 [])
                     FixedHost.timeout Scenario.launched
                     (Scenario.boot ∅) _ _) 3%nat 4%nat _ _ _ _).
    + vm_compute. discriminate.
    + intros n method url.
      change (took (roundTrip (Scenario.booting 3 []) n method url))
        with (took (if (3 <=? n)%nat
                    then mkRoundTrip (inr 200) time.Millisecond
                    else mkRoundTrip (inl TransportError) 0)).
      destruct (3 <=? n)%nat; vm_compute; split; discriminate.
    + lia.
    + vm_compute. reflexivity.
    + intros [|[|[|i]]] Hi; try reflexivity. lia.
    + reflexivity.
Defined.

(** C7, as the claim has it, fails.  The emulator never serves and every
    request runs into its 200 ms timeout, so a request that starts on a tick
    returns when the next tick is already waiting.  At 5 s the deadline and a
    tick are both ready; [select] takes the tick twice, and the deadline
    error comes 5.4 s after the call, later than timeout plus one polling
    interval. *)
Lemma confirmStartup_after_timeout_plus_interval :
  neverHealthy (Scenario.hung []) Scenario.launched /\
  withinRequestTimeout (Scenario.hung []) /\
  exists w',
    confirmStartup (Scenario.hung []) EnvInit.timeout 30
      Scenario.launched (Scenario.boot ∅)
    = Ret (Some DeadlineExceeded) Scenario.launched w' /\
    clock w' = 5400 * time.Millisecond /\
    clock (Scenario.boot ∅) + EnvInit.timeout + pollingRate < clock w'.
Proof.
  split; [intros n; reflexivity|].
  split; [intros n method url; vm_compute; split; discriminate|].
  eexists. split; [vm_compute; reflexivity|]. split; reflexivity.
Qed.

(** * More of the package *)

(** ** Splitting on one byte *)

Lemma append_cons (c : ascii) (s t : string) :
  String c s +:+ t = String c (s +:+ t).
Proof. reflexivity. Qed.

Lemma append_empty_r (s : string) : s +:+ "" = s.
Proof.
  induction s as [|c s IH]; [reflexivity|]. now rewrite append_cons, IH.
Qed.

Lemma append_snoc (s : string) (c : ascii) (t : string) :
  (s +:+ String c "") +:+ t = s +:+ String c t.
Proof.
  induction s as [|c' s IH]; [reflexivity|]. now rewrite !append_cons, IH.
Qed.

Lemma prefix_byte (c : ascii) (s : string) :
  String.prefix (String c "") s
  = match s with
    | EmptyString => false
    | String c' _ => Ascii.eqb c c'
    end.
Proof.
  destruct s as [|c' s]; [reflexivity|]. cbn.
  destruct (ascii_dec c c') as [->|Hne].
  - rewrite Ascii.eqb_refl. now destruct s.
  - symmetry. now apply Ascii.eqb_neq.
Qed.

(** [strings.Split] on a one-byte separator cuts at the first occurrence and
    goes on with the rest. *)
Lemma SplitFrom_cut (c : ascii) (s : string) :
  forall cur,
    strings.SplitFrom (String c "") 0 cur s
    = match cut c s with
      | None => [cur +:+ s]
      | Some (a, b) =>
          (cur +:+ a) :: strings.SplitFrom (String c "") 0 "" b
      end.
Proof.
  induction s as [|c' s IH]; intros cur.
  - cbn [strings.SplitFrom cut]. now rewrite append_empty_r.
  - cbn [strings.SplitFrom cut]. rewrite prefix_byte.
    destruct (Ascii.eqb c c').
    + now rewrite append_empty_r.
    + rewrite IH. destruct (cut c s) as [[a b]|]; now rewrite append_snoc.
Qed.

Lemma Split_second (c : ascii) (s : string) :
  strings.Split s (String c "") !! 1%nat
  = match cut c s with
    | None => None
    | Some (_, b) => Some (upTo c b)
    end.
Proof.
  unfold strings.Split, upTo. rewrite SplitFrom_cut.
  destruct (cut c s) as [[a b]|]; [|reflexivity].
  cbn. rewrite SplitFrom_cut. now destruct (cut c b) as [[a' b']|].
Qed.

Lemma Split_first (c : ascii) (s : string) :
  strings.Split s (String c "") !! 0%nat = Some (upTo c s).
Proof.
  unfold strings.Split, upTo. rewrite SplitFrom_cut.
  now destruct (cut c s) as [[a b]|].
Qed.

Lemma cut_absent (c : ascii) (s : string) :
  os.hasByte c s = false -> cut c s = None.
Proof.
  induction s as [|c' s IH]; [reflexivity|]. cbn.
  destruct (Ascii.eqb c c'); [discriminate|]. intros H. now rewrite IH.
Qed.

Lemma upTo_absent (c : ascii) (s : string) :
  os.hasByte c s = false -> upTo c s = s.
Proof. intros H. unfold upTo. now rewrite (cut_absent _ _ H). Qed.

Lemma cut_append (c : ascii) (a b : string) :
  os.hasByte c a = false -> cut c (a +:+ String c b) = Some (a, b).
Proof.
  induction a as [|c' a IH].
  { change ("" +:+ String c b) with (String c b). cbn [cut].
    now rewrite Ascii.eqb_refl. }
  rewrite append_cons. cbn [os.hasByte cut].
  destruct (Ascii.eqb c c'); [discriminate|]. intros H. now rewrite IH.
Qed.

Lemma hasByte_append (c : ascii) (a b : string) :
  os.hasByte c (a +:+ b) = os.hasByte c a || os.hasByte c b.
Proof.
  induction a as [|c' a IH]; [reflexivity|].
  rewrite append_cons. cbn [os.hasByte]. now destruct (Ascii.eqb c c').
Qed.

(** ** The scanner loop of initEnv *)

(** The loop body, read as two cuts. *)
Lemma scanLine_run
  (line : string) (env : gmap string string) (e : Emulator) (w : World) :
  EnvInit.scanLine line env e w
  = match cut " " line with
    | None => Panic "index out of range" e w
    | Some (_, rest) =>
        match cut "=" (upTo " " rest) with
        | None => Panic "index out of range" e w
        | Some (key, value) => Ret (<[key := upTo "=" value]> env) e w
        end
    end.
Proof.
  unfold EnvInit.scanLine, bind at 1, index at 1.
  change " "%string with (String " "%char "") at 1. rewrite Split_second.
  destruct (cut " " line) as [[first rest]|]; [|reflexivity].
  unfold ret at 1, bind at 1, index at 1.
  change "="%string with (String "="%char ""). rewrite Split_first.
  unfold ret at 1, bind at 1, index at 1. rewrite Split_second.
  set (tok := upTo " " rest).
  destruct (cut "=" tok) as [[key value]|] eqn:Hcut; [|reflexivity].
  unfold upTo at 2. now rewrite Hcut.
Qed.

(** X1. What the loop body of [initEnv] does with any line.  A line without
    a space panics.  Otherwise the second word is what lies between the first
    space and the next one; without a '=' in it the body panics; otherwise
    the key is what lies before its first '=' and the value what lies between
    that '=' and the next one, so a value is cut at a second '=', and words
    after the second are ignored. *)
Theorem scanLine_cuts
  (line : string) (env : gmap string string) (e : Emulator) (w : World) :
  EnvInit.scanLine line env e w
  = match cut " " line with
    | None => Panic "index out of range" e w
    | Some (_, rest) =>
        match cut "=" (upTo " " rest) with
        | None => Panic "index out of range" e w
        | Some (key, value) => Ret (<[key := upTo "=" value]> env) e w
        end
    end.
Proof.
  apply scanLine_run.
Qed.

Lemma scanLine_exported (kv : string * string)
  (env : gmap string string) (e : Emulator) (w : World) :
  isWord kv.1 -> isWord kv.2 ->
  EnvInit.scanLine (exportLine kv) env e w = Ret (<[kv.1 := kv.2]> env) e w.
Proof.
  destruct kv as [k v]. cbn [fst snd]. intros [Hk1 Hk2] [Hv1 Hv2].
  rewrite scanLine_run. unfold exportLine. cbn [fst snd].
  change (cut " " ("export " +:+ k +:+ "=" +:+ v))
    with (Some ("export", k +:+ String "="%char v)).
  cbv beta iota.
  assert (Hsp : os.hasByte " " (k +:+ String "="%char v) = false).
  { rewrite hasByte_append, Hk1. cbn. exact Hv1. }
  rewrite (upTo_absent _ _ Hsp), (cut_append _ _ _ Hk2).
  now rewrite (upTo_absent _ _ Hv2).
Qed.

Lemma scanLines_exported_run (kvs : list (string * string)) :
  Forall (fun kv => isWord kv.1 /\ isWord kv.2) kvs ->
  forall (env : gmap string string) (e : Emulator) (w : World),
    EnvInit.scanLines (map exportLine kvs) env e w
    = Ret (assigned kvs env) e w.
Proof.
  induction 1 as [|kv kvs [Hk Hv] _ IH]; intros env e w; [reflexivity|].
  cbn [map EnvInit.scanLines assigned fold_left]. unfold bind at 1.
  rewrite (scanLine_exported kv env e w Hk Hv). apply IH.
Qed.

(** X2. Printing and scanning round-trip: on the lines [export KEY=VALUE] of
    a list of assignments whose keys and values hold no space and no '=', the
    scanner loop does not panic and builds the map of these assignments, a
    later assignment of a key replacing an earlier one. *)
Theorem scanLines_exported (kvs : list (string * string)) :
  Forall (fun kv => isWord kv.1 /\ isWord kv.2) kvs ->
  forall (env : gmap string string) (e : Emulator) (w : World),
    EnvInit.scanLines (map exportLine kvs) env e w
    = Ret (assigned kvs env) e w.
Proof.
  apply scanLines_exported_run.
Qed.

Lemma scanLines_exported_witness :
  EnvInit.scanLines
    (map exportLine
       [("DATASTORE_HOST", "http://localhost:8081");
        ("DATASTORE_PROJECT_ID", "demo");
        ("DATASTORE_HOST", "http://localhost:9090")])
    ∅ zeroEmulator (Scenario.boot ∅)
  = Ret (assigned
           [("DATASTORE_HOST", "http://localhost:8081");
            ("DATASTORE_PROJECT_ID", "demo");
            ("DATASTORE_HOST", "http://localhost:9090")] ∅)
      zeroEmulator (Scenario.boot ∅).
Proof.
  apply scanLines_exported.
  repeat (constructor; [split; split; reflexivity|]). constructor.
Defined.

(** ** initEnv on the output of env-init *)

Lemma initEnv_exported_run (out : Outside) (e : Emulator) (w : World)
  (kvs : list (string * string)) :
  cmdRun out (nexec w) (command ["env-init"])
  = Printed (map exportLine kvs) None ->
  Forall (fun kv => isWord kv.1 /\ isWord kv.2) kvs ->
  os.hasByte os.NUL (mapGet (assigned kvs ∅) "DATASTORE_EMULATOR_HOST")
  = false ->
  os.hasByte os.NUL (mapGet (assigned kvs ∅) "DATASTORE_PROJECT_ID")
  = false ->
  exists w',
    EnvInit.initEnv out e w
    = Ret None
        (mkEmulator (mapGet (assigned kvs ∅) "DATASTORE_HOST")
           (mapGet (assigned kvs ∅) "DATASTORE_PROJECT_ID")
           (stopOnClose e)) w' /\
    environ w'
    = <["DATASTORE_PROJECT_ID" :=
          mapGet (assigned kvs ∅) "DATASTORE_PROJECT_ID"]>
        (<["DATASTORE_EMULATOR_HOST" :=
             mapGet (assigned kvs ∅) "DATASTORE_EMULATOR_HOST"]>
           (environ w)) /\
    log w'
    = log w ++
      [ EvRun (command ["env-init"]);
        EvSetenv "DATASTORE_EMULATOR_HOST"
          (mapGet (assigned kvs ∅) "DATASTORE_EMULATOR_HOST");
        EvSetenv "DATASTORE_PROJECT_ID"
          (mapGet (assigned kvs ∅) "DATASTORE_PROJECT_ID") ] /\
    nreq w' = nreq w /\ clock w' = clock w.
Proof.
  intros Hrun Hwords Hhost Hproject.
  assert (Hv1 : forall v, os.validSetenv "DATASTORE_EMULATOR_HOST" v
                          = negb (os.hasByte os.NUL v)) by reflexivity.
  assert (Hv2 : forall v, os.validSetenv "DATASTORE_PROJECT_ID" v
                          = negb (os.hasByte os.NUL v)) by reflexivity.
  unfold EnvInit.initEnv, bind at 1, cmd_Run. rewrite Hrun.
  unfold bind at 1. rewrite (scanLines_exported_run kvs Hwords).
  unfold bind, setHost, setProjectID, os.Setenv, ret.
  rewrite Hv1, Hv2, Hhost, Hproject. cbn [negb].
  eexists. split; [reflexivity|]. cbn. rewrite <- !app_assoc. now repeat split.
Qed.

(** X3. When [env-init] prints [export KEY=VALUE] lines, [initEnv] returns
    nil; [Host] is the value of DATASTORE_HOST and [ProjectID] that of
    DATASTORE_PROJECT_ID, while the host it publishes is the value of
    DATASTORE_EMULATOR_HOST.  A key that was not printed gives the empty
    string: the field is empty and the variable is set to the empty string.
    (A value with a NUL byte cannot be published; the two published values
    are taken to have none.) *)
Theorem initEnv_exported (out : Outside) (e : Emulator) (w : World)
  (kvs : list (string * string)) :
  cmdRun out (nexec w) (command ["env-init"])
  = Printed (map exportLine kvs) None ->
  Forall (fun kv => isWord kv.1 /\ isWord kv.2) kvs ->
  os.hasByte os.NUL (mapGet (assigned kvs ∅) "DATASTORE_EMULATOR_HOST")
  = false ->
  os.hasByte os.NUL (mapGet (assigned kvs ∅) "DATASTORE_PROJECT_ID")
  = false ->
  exists w',
    EnvInit.initEnv out e w
    = Ret None
        (mkEmulator (mapGet (assigned kvs ∅) "DATASTORE_HOST")
           (mapGet (assigned kvs ∅) "DATASTORE_PROJECT_ID")
           (stopOnClose e)) w' /\
    environ w'
    = <["DATASTORE_PROJECT_ID" :=
          mapGet (assigned kvs ∅) "DATASTORE_PROJECT_ID"]>
        (<["DATASTORE_EMULATOR_HOST" :=
             mapGet (assigned kvs ∅) "DATASTORE_EMULATOR_HOST"]>
           (environ w)) /\
    log w'
    = log w ++
      [ EvRun (command ["env-init"]);
        EvSetenv "DATASTORE_EMULATOR_HOST"
          (mapGet (assigned kvs ∅) "DATASTORE_EMULATOR_HOST");
        EvSetenv "DATASTORE_PROJECT_ID"
          (mapGet (assigned kvs ∅) "DATASTORE_PROJECT_ID") ].
Proof.
  intros Hrun Hwords Hhost Hproject.
  destruct (initEnv_exported_run out e w kvs Hrun Hwords Hhost Hproject)
    as (w' & H1 & H2 & H3 & _). now exists w'.
Qed.

Lemma initEnv_exported_witness :
  exists w',
    EnvInit.initEnv (Scenario.booting 0 Scenario.envInitLines)
      zeroEmulator (Scenario.boot ∅)
    = Ret None (mkEmulator "http://localhost:8081" "demo" false) w' /\
    environ w'
    = <["DATASTORE_PROJECT_ID" := "demo"]>
        (<["DATASTORE_EMULATOR_HOST" := "localhost:8081"]> ∅) /\
    log w'
    = [] ++
      [ EvRun (command ["env-init"]);
        EvSetenv "DATASTORE_EMULATOR_HOST" "localhost:8081";
        EvSetenv "DATASTORE_PROJECT_ID" "demo" ].
Proof.
  apply (initEnv_exported (Scenario.booting 0 Scenario.envInitLines)
           zeroEmulator (Scenario.boot ∅) Scenario.envInitPairs).
  - reflexivity.
  - repeat (constructor; [split; split; reflexivity|]). constructor.
  - reflexivity.
  - reflexivity.
Defined.

(** ** Launching *)

Lemma confirmStartup_confirms (out : Outside) (timeout : Z) (k fuel : nat)
  (e : Emulator) (w : World) :
  (k < fuel)%nat -> withinRequestTimeout out ->
  pollingRate * (Z.of_nat k + 1) < timeout ->
  (forall i, (i < k)%nat ->
     answers200 out (nreq w + i) MethodGet
       (Host e +:+ healthcheckEndpoint) = false) ->
  answers200 out (nreq w + k) MethodGet (Host e +:+ healthcheckEndpoint)
  = true ->
  exists w' evs,
    confirmStartup out timeout fuel e w = Ret None e w' /\
    environ w' = environ w /\
    log w' = log w ++ evs /\ forallb isPollEvent evs = true /\
    clock w'
    = clock w + pollingRate * (Z.of_nat k + 1)
      + took (roundTrip out (nreq w + k) MethodGet
                (Host e +:+ healthcheckEndpoint)).
Proof.
  intros Hfuel Htime Hbefore Hfail Hok.
  destruct (poll_confirms out timeout k fuel (clock w) false e w 0)
    as (w' & Hrun & Hclock); try assumption;
    try (rewrite pollingRate_ns in *; lia).
  assert (Hrun' : confirmStartup out timeout fuel e w = Ret None e w')
    by exact Hrun.
  destruct (confirmStartup_run _ _ _ _ _ _ _ _ Hrun')
    as (_ & Henv & _ & evs & Hlog & Hpoll & _).
  exists w', evs. repeat (split; [assumption|]).
  rewrite Hclock, pollingRate_ns. lia.
Qed.

(** X4. part_000, launch and confirm.  When discovery adopts nothing, the
    command starts, requests are back within their timeout and the emulator
    answers the k-th probe, k+1 ticks fitting before the 30 s deadline,
    [Start] returns nil: the handle is owned with [Host] http://localhost:8088
    and [ProjectID] test, DATASTORE_EMULATOR_HOST is localhost:8088 and
    DATASTORE_PROJECT_ID is test, every other variable is as before, no POST
    was sent, and the time taken by launch and confirmation is k+1 polling
    intervals plus the time of the answered probe. *)
Theorem FixedHost_Start_launches
  (out : Outside) (fuel k : nat) (e : Emulator) (w w1 : World) :
  FixedHost.instanceIsPresent out e w = Ret false e w1 ->
  cmdStart out (nexec w1) FixedHost.startArgs = None ->
  withinRequestTimeout out ->
  (k < fuel)%nat ->
  pollingRate * (Z.of_nat k + 1) < FixedHost.timeout ->
  (forall i, (i < k)%nat ->
     answers200 out (nreq w1 + i) MethodGet
       (Host FixedHost.launched +:+ healthcheckEndpoint) = false) ->
  answers200 out (nreq w1 + k) MethodGet
    (Host FixedHost.launched +:+ healthcheckEndpoint) = true ->
  exists w' evs,
    FixedHost.Start out fuel e w = Ret None FixedHost.launched w' /\
    FixedHost.launched = mkEmulator "http://localhost:8088" "test" true /\
    environ w'
    = <["DATASTORE_PROJECT_ID" := "test"]>
        (<["DATASTORE_EMULATOR_HOST" := "localhost:8088"]> (environ w)) /\
    log w' = log w1 ++ evs /\ existsb isPost evs = false /\
    clock w'
    = clock w1 + pollingRate * (Z.of_nat k + 1)
      + took (roundTrip out (nreq w1 + k) MethodGet
                (Host FixedHost.launched +:+ healthcheckEndpoint)).
Proof.
  intros Hpresent Hspawn Htime Hfuel Hbefore Hfail Hok.
  destruct (FixedHost_instanceIsPresent_run out e w)
    as (p & e1 & w1' & d & Hp & _ & Henv1 & _).
  rewrite Hpresent in Hp. inversion Hp; subst p e1 w1'. clear Hp.
  destruct (confirmStartup_confirms out FixedHost.timeout k fuel
              FixedHost.launched (spawned FixedHost.startArgs w1))
    as (w2 & evs & Hconfirm & Henv2 & Hlog2 & Hpoll & Hclock);
    try assumption.
  destruct (pollEvents_quiet evs Hpoll) as (_ & _ & Hpost).
  eexists _, (EvStart FixedHost.startArgs None :: evs ++ [_; _]).
  split; [|split; [reflexivity|]].
  - unfold FixedHost.Start, bind at 1. rewrite Hpresent.
    unfold bind at 1, setStopOnClose at 1.
    unfold bind at 1, cmd_Start at 1. rewrite Hspawn.
    unfold bind at 1, setHost at 1. unfold bind at 1, setProjectID at 1.
    unfold bind at 1. cbn [Host ProjectID stopOnClose].
    fold (spawned FixedHost.startArgs w1). fold FixedHost.launched.
    rewrite Hconfirm. reflexivity.
  - cbn [environ emit withEnviron log clock]. rewrite Henv2, Hlog2.
    cbn [environ spawned emit nextExec log]. rewrite Henv1.
    split; [reflexivity|]. split; [now rewrite <- !app_assoc|].
    split; [|exact Hclock].
    cbn [existsb isPost]. rewrite existsb_app, Hpost. reflexivity.
Qed.

Lemma FixedHost_Start_launches_witness :
  exists w' evs,
    FixedHost.Start (Scenario.booting 2 []) 5 zeroEmulator (Scenario.boot ∅)
    = Ret None FixedHost.launched w' /\
    FixedHost.launched = mkEmulator "http://localhost:8088" "test" true /\
    environ w'
    = <["DATASTORE_PROJECT_ID" := "test"]>
        (<["DATASTORE_EMULATOR_HOST" := "localhost:8088"]>
           (environ (Scenario.boot ∅))) /\
    log w' = log (Scenario.boot ∅) ++ evs /\ existsb isPost evs = false /\
    clock w'
    = clock (Scenario.boot ∅) + pollingRate * (Z.of_nat 2 + 1)
      + took (roundTrip (Scenario.booting 2 []) (0 + 2) MethodGet
                (Host FixedHost.launched +:+ healthcheckEndpoint)).
Proof.
  apply (FixedHost_Start_launches (Scenario.booting 2 []) 5 2 zeroEmulator
           (Scenario.boot ∅) (Scenario.boot ∅)).
  - reflexivity.
  - reflexivity.
  - intros n method url.
    change (took (roundTrip (Scenario.booting 2 []) n method url))
      with (took (if (2 <=? n)%nat
                  then mkRoundTrip (inr 200) time.Millisecond
                  else mkRoundTrip (inl TransportError) 0)).
    destruct (2 <=? n)%nat; vm_compute; split; discriminate.
  - lia.
  - vm_compute. reflexivity.
  - intros [|[|i]] Hi; try reflexivity. lia.
  - reflexivity.
Defined.

(** X5. emulator.go, launch and confirm.  When discovery adopts nothing, the
    command starts, [initEnv] returns nil and leaves the handle [e2],
    requests are back within their timeout and the emulator answers the k-th
    probe of [e2.Host], k+1 ticks fitting before the 5 s deadline, [Start]
    returns nil with the handle [e2], owned; confirmation changes nothing in
    the environment that [initEnv] left, sends no POST, and takes k+1
    polling intervals plus the time of the answered probe. *)
Theorem EnvInit_Start_launches
  (out : Outside) (fuel k : nat) (e e2 : Emulator) (w w1 w2 : World) :
  EnvInit.instanceIsPresent out e w = Ret false e w1 ->
  cmdStart out (nexec w1) EnvInit.startArgs = None ->
  EnvInit.initEnv out (owned e) (spawned EnvInit.startArgs w1)
  = Ret None e2 w2 ->
  withinRequestTimeout out ->
  (k < fuel)%nat ->
  pollingRate * (Z.of_nat k + 1) < EnvInit.timeout ->
  (forall i, (i < k)%nat ->
     answers200 out (nreq w2 + i) MethodGet
       (Host e2 +:+ healthcheckEndpoint) = false) ->
  answers200 out (nreq w2 + k) MethodGet (Host e2 +:+ healthcheckEndpoint)
  = true ->
  exists w' evs,
    EnvInit.Start out fuel e w = Ret None e2 w' /\
    stopOnClose e2 = true /\
    environ w' = environ w2 /\
    log w' = log w2 ++ evs /\ existsb isPost evs = false /\
    clock w'
    = clock w2 + pollingRate * (Z.of_nat k + 1)
      + took (roundTrip out (nreq w2 + k) MethodGet
                (Host e2 +:+ healthcheckEndpoint)).
Proof.
  intros Hpresent Hspawn Hinit Htime Hfuel Hbefore Hfail Hok.
  pose proof (initEnv_run _ _ _ _ _ _ Hinit) as (Howned & _).
  destruct (confirmStartup_confirms out EnvInit.timeout k fuel e2 w2)
    as (w3 & evs & Hconfirm & Henv3 & Hlog3 & Hpoll & Hclock);
    try assumption.
  destruct (pollEvents_quiet evs Hpoll) as (_ & _ & Hpost).
  exists w3, evs. split.
  - unfold EnvInit.Start, bind at 1. rewrite Hpresent.
    unfold bind at 1, setStopOnClose at 1.
    unfold bind at 1, cmd_Start at 1. rewrite Hspawn.
    unfold bind at 1. fold (owned e). fold (spawned EnvInit.startArgs w1).
    rewrite Hinit. unfold bind at 1. now rewrite Hconfirm.
  - now repeat split.
Qed.

Lemma EnvInit_Start_launches_witness :
  exists w' evs,
    EnvInit.Start (Scenario.booting 2 Scenario.envInitLines) 5
      zeroEmulator (Scenario.boot ∅)
    = Ret None Scenario.launched w' /\
    stopOnClose Scenario.launched = true /\
    os.lookupEnv w' "DATASTORE_EMULATOR_HOST" = "localhost:8081" /\
    existsb isPost evs = false /\
    clock w' = 600 * time.Millisecond + time.Millisecond.
Proof.
  edestruct (EnvInit_Start_launches
               (Scenario.booting 2 Scenario.envInitLines) 5 2 zeroEmulator
               Scenario.launched (Scenario.boot ∅) (Scenario.boot ∅))
    as (w' & evs & Hrun & Howned & Henv & Hlog & Hpost & Hclock).
  - reflexivity.
  - reflexivity.
  - vm_compute. reflexivity.
  - intros n method url.
    change (took (roundTrip (Scenario.booting 2 Scenario.envInitLines)
                    n method url))
      with (took (if (2 <=? n)%nat
                  then mkRoundTrip (inr 200) time.Millisecond
                  else mkRoundTrip (inl TransportError) 0)).
    destruct (2 <=? n)%nat; vm_compute; split; discriminate.
  - lia.
  - vm_compute. reflexivity.
  - intros [|[|i]] Hi; try reflexivity. lia.
  - reflexivity.
  - exists w', evs. split; [exact Hrun|]. split; [exact Howned|].
    split; [unfold os.lookupEnv; rewrite Henv; reflexivity|].
    split; [exact Hpost|]. rewrite Hclock. reflexivity.
Defined.

(** ** Spawning and ownership *)

Section Shapes.

Variable out : Outside.

Lemma initEnv_quiet e w r e' w' :
  EnvInit.initEnv out e w = Ret r e' w' ->
  exists evs,
    log w' = log w ++ evs /\
    existsb isSpawn evs = false /\ existsb isPost evs = false.
Proof.
  intros H. destruct (initEnv_run _ _ _ _ _ _ H)
    as (_ & _ & sets & Hlog & Hsets & _).
  destruct (setenvs_quiet sets Hsets) as (_ & Hs & Hp).
  exists (EvRun (command ["env-init"]) :: sets). now repeat split.
Qed.

(** The two ways a run of [Start] of emulator.go can go: adoption, with
    nothing started; or one command started, first thing after discovery. *)
Lemma EnvInit_Start_shape fuel e w r e' w' :
  EnvInit.Start out fuel e w = Ret r e' w' ->
  exists evs,
    log w' = log w ++ evs /\
    ((existsb isSpawn evs = false /\ r = None /\
      stopOnClose e' = stopOnClose e /\ environ w' = environ w /\
      existsb isPost evs = false) \/
     (exists d err rest,
        evs = d ++ EvStart EnvInit.startArgs err :: rest /\
        existsb isSpawn d = false /\ existsb isSpawn rest = false /\
        stopOnClose e' = true /\
        (r = None -> err = None /\ existsb isPost evs = false))).
Proof.
  intros H. unfold EnvInit.Start, bind at 1 in H.
  destruct (EnvInit_instanceIsPresent_run out e w)
    as (present & e1 & w1 & d & Hp & Hlog1 & Henv1 & _ & Hpoll1 & _ & Hown1
        & He1).
  rewrite Hp in H.
  destruct (pollEvents_quiet d Hpoll1) as (_ & Hs1 & Hp1).
  destruct present.
  { inversion H; subst. exists d. split; [assumption|]. left.
    now repeat split. }
  specialize (He1 eq_refl). subst e1.
  unfold bind at 1, setStopOnClose at 1 in H.
  unfold bind at 1, cmd_Start at 1 in H.
  destruct (cmdStart out (nexec w1) EnvInit.startArgs) as [err|] eqn:Hspawn.
  { inversion H; subst. eexists. cbn. rewrite Hlog1, <- app_assoc.
    split; [reflexivity|]. right. exists d, (Some err), [].
    split; [reflexivity|]. repeat split; auto. all: discriminate. }
  unfold bind at 1 in H. fold (owned e) in H.
  fold (spawned EnvInit.startArgs w1) in H.
  destruct (EnvInit.initEnv out (owned e) (spawned EnvInit.startArgs w1))
    as [ri e2 w2| |] eqn:Hinit; try discriminate.
  destruct (initEnv_run _ _ _ _ _ _ Hinit) as (Howned & _).
  destruct (initEnv_quiet _ _ _ _ _ Hinit) as (ievs & Hlog2 & His & Hip).
  cbn in Howned, Hlog2.
  destruct ri as [err|].
  { destruct (Close_after_failure out e2 w2 err Howned)
      as (rc & w3 & rest & _ & Hseq & _ & Hlog3 & _ & Hcs & _).
    rewrite Hseq in H. inversion H; subst. eexists.
    rewrite Hlog3, Hlog2, Hlog1, <- !app_assoc. split; [reflexivity|].
    right. exists d, None, (ievs ++ EvUnsetenv "DATASTORE_EMULATOR_HOST"
                              :: EvUnsetenv "DATASTORE_PROJECT_ID" :: rest).
    split; [reflexivity|]. split; [assumption|].
    split; [rewrite existsb_app, His; exact Hcs|].
    split; [assumption|]. discriminate. }
  unfold bind at 1 in H.
  destruct (confirmStartup out EnvInit.timeout fuel e2 w2)
    as [rc e3 w3| |] eqn:Hconfirm; try discriminate.
  destruct (confirmStartup_run _ _ _ _ _ _ _ _ Hconfirm)
    as (-> & _ & _ & polled & Hlog3 & Hpoll3 & _).
  destruct (pollEvents_quiet polled Hpoll3) as (_ & Hs3 & Hp3).
  destruct rc as [err|].
  - destruct (Close_after_failure out e2 w3 err Howned)
      as (rc & w4 & rest & _ & Hseq & _ & Hlog4 & _ & Hcs & _).
    rewrite Hseq in H. inversion H; subst. eexists.
    rewrite Hlog4, Hlog3, Hlog2, Hlog1, <- !app_assoc.
    split; [reflexivity|].
    right. exists d, None,
      (ievs ++ polled ++ EvUnsetenv "DATASTORE_EMULATOR_HOST"
         :: EvUnsetenv "DATASTORE_PROJECT_ID" :: rest).
    split; [reflexivity|]. split; [assumption|].
    split; [rewrite !existsb_app, His, Hs3; exact Hcs|].
    split; [assumption|]. discriminate.
  - inversion H; subst. eexists.
    rewrite Hlog3, Hlog2, Hlog1, <- !app_assoc. split; [reflexivity|].
    right. exists d, None, (ievs ++ polled).
    split; [reflexivity|]. split; [assumption|].
    split; [now rewrite existsb_app, His, Hs3|].
    split; [assumption|]. intros _. split; [reflexivity|].
    rewrite existsb_app, Hp1. cbn. now rewrite existsb_app, Hip, Hp3.
Qed.

(** The same for part_000. *)
Lemma FixedHost_Start_shape fuel e w r e' w' :
  FixedHost.Start out fuel e w = Ret r e' w' ->
  exists evs,
    log w' = log w ++ evs /\
    ((existsb isSpawn evs = false /\ r = None /\
      stopOnClose e' = stopOnClose e /\ environ w' = environ w /\
      existsb isPost evs = false) \/
     (exists d err rest,
        evs = d ++ EvStart FixedHost.startArgs err :: rest /\
        existsb isSpawn d = false /\ existsb isSpawn rest = false /\
        stopOnClose e' = true /\
        (r = None -> err = None /\ existsb isPost evs = false))).
Proof.
  intros H. unfold FixedHost.Start, bind at 1 in H.
  destruct (FixedHost_instanceIsPresent_run out e w)
    as (present & e1 & w1 & d & Hp & Hlog1 & Henv1 & _ & Hpoll1 & _ & Hown1
        & He1).
  rewrite Hp in H.
  destruct (pollEvents_quiet d Hpoll1) as (_ & Hs1 & Hp1).
  destruct present.
  { inversion H; subst. exists d. split; [assumption|]. left.
    now repeat split. }
  specialize (He1 eq_refl). subst e1.
  unfold bind at 1, setStopOnClose at 1 in H.
  unfold bind at 1, cmd_Start at 1 in H.
  destruct (cmdStart out (nexec w1) FixedHost.startArgs) as [err|] eqn:Hspawn.
  { inversion H; subst. eexists. cbn. rewrite Hlog1, <- app_assoc.
    split; [reflexivity|]. right. exists d, (Some err), [].
    split; [reflexivity|]. repeat split; auto. all: discriminate. }
  unfold bind at 1, setHost at 1 in H.
  unfold bind at 1, setProjectID at 1 in H.
  unfold bind at 1 in H. cbn [Host ProjectID stopOnClose] in H.
  fold (spawned FixedHost.startArgs w1) in H. fold FixedHost.launched in H.
  destruct (confirmStartup out FixedHost.timeout fuel FixedHost.launched
              (spawned FixedHost.startArgs w1))
    as [rc e3 w3| |] eqn:Hconfirm; try discriminate.
  destruct (confirmStartup_run _ _ _ _ _ _ _ _ Hconfirm)
    as (-> & _ & _ & polled & Hlog3 & Hpoll3 & _).
  cbn in Hlog3.
  destruct (pollEvents_quiet polled Hpoll3) as (_ & Hs3 & Hp3).
  destruct rc as [err|].
  - destruct (Close_after_failure out FixedHost.launched w3 err eq_refl)
      as (rc & w4 & rest & _ & Hseq & _ & Hlog4 & _ & Hcs & _).
    rewrite Hseq in H. inversion H; subst. eexists.
    rewrite Hlog4, Hlog3, Hlog1, <- !app_assoc.
    split; [reflexivity|].
    right. exists d, None,
      (polled ++ EvUnsetenv "DATASTORE_EMULATOR_HOST"
         :: EvUnsetenv "DATASTORE_PROJECT_ID" :: rest).
    split; [reflexivity|]. split; [assumption|].
    split; [rewrite !existsb_app, Hs3; exact Hcs|].
    split; [reflexivity|]. discriminate.
  - unfold bind, os.Setenv, ret in H.
    replace (os.validSetenv "DATASTORE_EMULATOR_HOST" FixedHost.defaultHost)
      with true in H by reflexivity.
    replace (os.validSetenv "DATASTORE_PROJECT_ID" FixedHost.defaultProject)
      with true in H by reflexivity.
    inversion H; subst. cbn [log emit withEnviron]. eexists.
    rewrite Hlog3, Hlog1, <- !app_assoc. split; [reflexivity|].
    right. exists d, None, (polled ++ [EvSetenv "DATASTORE_EMULATOR_HOST"
                                       FixedHost.defaultHost;
                                     EvSetenv "DATASTORE_PROJECT_ID"
                                       FixedHost.defaultProject]).
    split; [now rewrite <- ?app_assoc|]. split; [assumption|].
    split; [now rewrite existsb_app, Hs3|].
    split; [reflexivity|]. intros _. split; [reflexivity|].
    rewrite existsb_app, Hp1. cbn. now rewrite existsb_app, Hp3.
Qed.

End Shapes.

Lemma filter_quiet {A} (p : A -> bool) (l : list A) :
  existsb p l = false -> List.filter p l = [].
Proof.
  induction l as [|x l IH]; [reflexivity|]. cbn.
  destruct (p x); [discriminate|]. exact IH.
Qed.

Lemma Start_shape (out : Outside) fuel e w r e' w' :
  EnvInit.Start out fuel e w = Ret r e' w' \/
  FixedHost.Start out fuel e w = Ret r e' w' ->
  exists evs,
    log w' = log w ++ evs /\
    ((existsb isSpawn evs = false /\ r = None /\
      stopOnClose e' = stopOnClose e /\ environ w' = environ w /\
      existsb isPost evs = false) \/
     (exists d args err rest,
        evs = d ++ EvStart args err :: rest /\
        existsb isSpawn d = false /\ existsb isSpawn rest = false /\
        stopOnClose e' = true /\
        (r = None -> err = None /\ existsb isPost evs = false))).
Proof.
  intros [H | H].
  - destruct (EnvInit_Start_shape out _ _ _ _ _ _ H)
      as (evs & Hlog & [Ha | (d & err & rest & Hs)]);
      exists evs; (split; [assumption|]); [now left | right].
    now exists d, EnvInit.startArgs, err, rest.
  - destruct (FixedHost_Start_shape out _ _ _ _ _ _ H)
      as (evs & Hlog & [Ha | (d & err & rest & Hs)]);
      exists evs; (split; [assumption|]); [now left | right].
    now exists d, FixedHost.startArgs, err, rest.
Qed.

(** ** How many commands *)

Section Commands.

Variable out : Outside.

Lemma request_nexec path method e w r e' w' :
  request out path method e w = Ret r e' w' -> nexec w' = nexec w.
Proof.
  unfold request. destruct (newRequest out method _).
  { intros H. now inversion H. }
  destruct (resp _) as [err|code]; [intros H; now inversion H|].
  destruct (code =? 200); intros H; now inversion H.
Qed.

(** [Close] runs no command. *)
Lemma Close_nexec e w r e' w' :
  Close out e w = Ret r e' w' -> nexec w' = nexec w.
Proof.
  intros H. destruct (stopOnClose e) eqn:Howned.
  - unfold Close, bind at 1, getStopOnClose in H. rewrite Howned in H.
    cbn [negb] in H. unfold bind at 1, os.Unsetenv at 1 in H.
    unfold bind at 1, os.Unsetenv at 1 in H. unfold bind at 1 in H.
    match type of H with
    | context [isHealthy out e ?w0] =>
        destruct (isHealthy_run out e w0)
          as (healthy & w1 & evs & Hh & _ & _ & _ & Hexec & _)
    end.
    rewrite Hh in H. cbn in Hexec. destruct healthy.
    + apply request_nexec in H. congruence.
    + inversion H; subst. assumption.
  - rewrite (Close_not_owned_run out e w Howned) in H. now inversion H.
Qed.

(** A run of [Start] of emulator.go runs no command when it adopts, and
    otherwise the emulator and, if that started, [env-init]. *)
Lemma EnvInit_Start_commands fuel e w r e' w' :
  EnvInit.Start out fuel e w = Ret r e' w' ->
  nexec w' = nexec w \/
  ((nexec w < nexec w' <= nexec w + 2)%nat /\
   exists d err rest,
     log w' = log w ++ d ++ EvStart EnvInit.startArgs err :: rest).
Proof.
  intros H. unfold EnvInit.Start, bind at 1 in H.
  destruct (EnvInit_instanceIsPresent_run out e w)
    as (present & e1 & w1 & d & Hp & Hlog1 & _ & Hexec1 & _ & _ & _ & He1).
  rewrite Hp in H.
  destruct present.
  { inversion H; subst. now left. }
  specialize (He1 eq_refl). subst e1. right.
  unfold bind at 1, setStopOnClose at 1 in H.
  unfold bind at 1, cmd_Start at 1 in H.
  destruct (cmdStart out (nexec w1) EnvInit.startArgs) as [err|] eqn:Hspawn.
  { inversion H; subst. cbn. rewrite Hlog1, <- app_assoc.
    split; [lia|]. now exists d, (Some err), []. }
  unfold bind at 1 in H. fold (owned e) in H.
  fold (spawned EnvInit.startArgs w1) in H.
  destruct (EnvInit.initEnv out (owned e) (spawned EnvInit.startArgs w1))
    as [ri e2 w2| |] eqn:Hinit; try discriminate.
  destruct (initEnv_run _ _ _ _ _ _ Hinit)
    as (Howned & Hexec2 & ievs & Hlog2 & _).
  cbn in Howned, Hexec2, Hlog2.
  destruct ri as [err|].
  { destruct (Close_after_failure out e2 w2 err Howned)
      as (rc & w3 & rest & Hclose & Hseq & _ & Hlog3 & _).
    rewrite Hseq in H. inversion H; subst.
    apply Close_nexec in Hclose. split; [lia|].
    rewrite Hlog3, Hlog2, Hlog1, <- !app_assoc. cbn.
    now eexists d, None, _. }
  unfold bind at 1 in H.
  destruct (confirmStartup out EnvInit.timeout fuel e2 w2)
    as [rc e3 w3| |] eqn:Hconfirm; try discriminate.
  destruct (confirmStartup_run _ _ _ _ _ _ _ _ Hconfirm)
    as (-> & _ & Hexec3 & polled & Hlog3 & _).
  destruct rc as [err|].
  - destruct (Close_after_failure out e2 w3 err Howned)
      as (rc & w4 & rest & Hclose & Hseq & _ & Hlog4 & _).
    rewrite Hseq in H. inversion H; subst.
    apply Close_nexec in Hclose. split; [lia|].
    rewrite Hlog4, Hlog3, Hlog2, Hlog1, <- !app_assoc. cbn.
    now eexists d, None, _.
  - inversion H; subst. split; [lia|].
    rewrite Hlog3, Hlog2, Hlog1, <- !app_assoc. cbn.
    now eexists d, None, _.
Qed.

(** A run of [Start] of part_000 runs no command when it adopts, and
    otherwise the emulator alone. *)
Lemma FixedHost_Start_commands fuel e w r e' w' :
  FixedHost.Start out fuel e w = Ret r e' w' ->
  nexec w' = nexec w \/
  (nexec w' = S (nexec w) /\
   exists d err rest,
     log w' = log w ++ d ++ EvStart FixedHost.startArgs err :: rest).
Proof.
  intros H. unfold FixedHost.Start, bind at 1 in H.
  destruct (FixedHost_instanceIsPresent_run out e w)
    as (present & e1 & w1 & d & Hp & Hlog1 & _ & Hexec1 & _ & _ & _ & He1).
  rewrite Hp in H.
  destruct present.
  { inversion H; subst. now left. }
  specialize (He1 eq_refl). subst e1. right.
  unfold bind at 1, setStopOnClose at 1 in H.
  unfold bind at 1, cmd_Start at 1 in H.
  destruct (cmdStart out (nexec w1) FixedHost.startArgs) as [err|] eqn:Hspawn.
  { inversion H; subst. cbn. rewrite Hlog1, <- app_assoc.
    split; [lia|]. now exists d, (Some err), []. }
  unfold bind at 1, setHost at 1 in H.
  unfold bind at 1, setProjectID at 1 in H.
  unfold bind at 1 in H. cbn [Host ProjectID stopOnClose] in H.
  fold (spawned FixedHost.startArgs w1) in H. fold FixedHost.launched in H.
  destruct (confirmStartup out FixedHost.timeout fuel FixedHost.launched
              (spawned FixedHost.startArgs w1))
    as [rc e3 w3| |] eqn:Hconfirm; try discriminate.
  destruct (confirmStartup_run _ _ _ _ _ _ _ _ Hconfirm)
    as (-> & _ & Hexec3 & polled & Hlog3 & _).
  cbn in Hexec3, Hlog3.
  destruct rc as [err|].
  - destruct (Close_after_failure out FixedHost.launched w3 err eq_refl)
      as (rc & w4 & rest & Hclose & Hseq & _ & Hlog4 & _).
    rewrite Hseq in H. inversion H; subst.
    apply Close_nexec in Hclose. split; [lia|].
    rewrite Hlog4, Hlog3, Hlog1, <- !app_assoc. cbn.
    now eexists d, None, _.
  - unfold bind, os.Setenv, ret in H.
    replace (os.validSetenv "DATASTORE_EMULATOR_HOST" FixedHost.defaultHost)
      with true in H by reflexivity.
    replace (os.validSetenv "DATASTORE_PROJECT_ID" FixedHost.defaultProject)
      with true in H by reflexivity.
    inversion H; subst. cbn [log nexec emit withEnviron].
    split; [lia|]. rewrite Hlog3, Hlog1, <- !app_assoc. cbn.
    now eexists d, None, _.
Qed.

End Commands.

(** X6. In either version a run of [Start] that returns calls
    [exec.Cmd.Start] at most once: it spawns at most one emulator.  If it
    made that call, with or without success, the handle is owned; if it did
    not, it adopted: it returns nil, ownership is what it was, the
    environment is untouched and no command was run at all.  Counting
    [exec.Cmd.Run] as well, emulator.go runs at most two commands, the
    emulator and [env-init], and part_000 at most one. *)
Theorem Start_spawns_once_and_owns
  (out : Outside) (fuel : nat) (e : Emulator) (w : World)
  (r : option error) (e' : Emulator) (w' : World) (evs : list Event) :
  EnvInit.Start out fuel e w = Ret r e' w' \/
  FixedHost.Start out fuel e w = Ret r e' w' ->
  log w' = log w ++ evs ->
  (length (List.filter isSpawn evs) <= 1)%nat /\
  (existsb isSpawn evs = true -> stopOnClose e' = true) /\
  (existsb isSpawn evs = false ->
   r = None /\ stopOnClose e' = stopOnClose e /\ environ w' = environ w /\
   nexec w' = nexec w) /\
  (EnvInit.Start out fuel e w = Ret r e' w' ->
   (nexec w' <= nexec w + 2)%nat) /\
  (FixedHost.Start out fuel e w = Ret r e' w' ->
   (nexec w' <= nexec w + 1)%nat).
Proof.
  intros Hrun Hlog.
  assert (Hquiet : existsb isSpawn evs = false -> nexec w' = nexec w).
  { intros Hnone.
    assert (Hspawned : forall d args err rest,
              log w' = log w ++ d ++ EvStart args err :: rest -> False).
    { intros d args err rest Hlog'. rewrite Hlog in Hlog'.
      apply app_inv_head in Hlog'. subst evs.
      rewrite existsb_app in Hnone. cbn in Hnone.
      now rewrite orb_true_r in Hnone. }
    destruct Hrun as [H | H].
    - destruct (EnvInit_Start_commands out _ _ _ _ _ _ H)
        as [Hsame | (_ & d & err & rest & Hlog')]; [assumption|].
      now destruct (Hspawned _ _ _ _ Hlog').
    - destruct (FixedHost_Start_commands out _ _ _ _ _ _ H)
        as [Hsame | (_ & d & err & rest & Hlog')]; [assumption|].
      now destruct (Hspawned _ _ _ _ Hlog'). }
  assert (Hcount :
            (EnvInit.Start out fuel e w = Ret r e' w' ->
             (nexec w' <= nexec w + 2)%nat) /\
            (FixedHost.Start out fuel e w = Ret r e' w' ->
             (nexec w' <= nexec w + 1)%nat)).
  { split; intros H.
    - destruct (EnvInit_Start_commands out _ _ _ _ _ _ H) as [Hs | [Hs _]];
        lia.
    - destruct (FixedHost_Start_commands out _ _ _ _ _ _ H) as [Hs | [Hs _]];
        lia. }
  destruct (Start_shape out _ _ _ _ _ _ Hrun) as (evs' & Hlog' & Hshape).
  rewrite Hlog in Hlog'. apply app_inv_head in Hlog'. subst evs'.
  destruct Hshape as [(Hs & -> & Hown & Henv & _)
                     | (d & args & err & rest & -> & Hd & Hrest & Hown & _)].
  - rewrite (filter_quiet _ _ Hs). cbn.
    split; [lia|]. split; [now rewrite Hs|].
    split; [|exact Hcount]. intros _. repeat split; auto.
  - rewrite List.filter_app, (filter_quiet _ _ Hd). cbn.
    rewrite (filter_quiet _ _ Hrest). cbn.
    split; [lia|]. split; [now intros _|].
    split; [|exact Hcount]. intros Hnone.
    rewrite existsb_app in Hnone. cbn in Hnone.
    now rewrite orb_true_r in Hnone.
Qed.

Lemma Start_spawns_once_and_owns_witness :
  exists r e' w' evs,
    EnvInit.Start (Scenario.unreachable Scenario.envInitLines) 30
      zeroEmulator (Scenario.boot ∅) = Ret r e' w' /\
    log w' = [] ++ evs /\
    nexec w' = 2%nat /\
    (length (List.filter isSpawn evs) <= 1)%nat /\
    (existsb isSpawn evs = true -> stopOnClose e' = true) /\
    (existsb isSpawn evs = false ->
     r = None /\ stopOnClose e' = stopOnClose zeroEmulator /\
     environ w' = environ (Scenario.boot ∅) /\
     nexec w' = nexec (Scenario.boot ∅)) /\
    (EnvInit.Start (Scenario.unreachable Scenario.envInitLines) 30
       zeroEmulator (Scenario.boot ∅) = Ret r e' w' ->
     (nexec w' <= nexec (Scenario.boot ∅) + 2)%nat) /\
    (FixedHost.Start (Scenario.unreachable Scenario.envInitLines) 30
       zeroEmulator (Scenario.boot ∅) = Ret r e' w' ->
     (nexec w' <= nexec (Scenario.boot ∅) + 1)%nat).
Proof.
  eexists _, _, _, _.
  split; [vm_compute; reflexivity|].
  split; [vm_compute; reflexivity|].
  split; [reflexivity|].
  eapply (Start_spawns_once_and_owns
            (Scenario.unreachable Scenario.envInitLines) 30
            zeroEmulator (Scenario.boot ∅)).
  - left. vm_compute. reflexivity.
  - vm_compute. reflexivity.
Defined.

(** X7. In either version a run of [Start] that returns nil has sent no POST
    request: a successful start never asks an instance to shut down or to
    reset. *)
Theorem Start_nil_sends_no_POST
  (out : Outside) (fuel : nat) (e : Emulator) (w : World)
  (e' : Emulator) (w' : World) (evs : list Event) :
  EnvInit.Start out fuel e w = Ret None e' w' \/
  FixedHost.Start out fuel e w = Ret None e' w' ->
  log w' = log w ++ evs ->
  existsb isPost evs = false.
Proof.
  intros Hrun Hlog.
  destruct (Start_shape out _ _ _ _ _ _ Hrun) as (evs' & Hlog' & Hshape).
  rewrite Hlog in Hlog'. apply app_inv_head in Hlog'. subst evs'.
  destruct Hshape as [(_ & _ & _ & _ & Hpost)
                     | (d & args & err & rest & _ & _ & _ & _ & Hnil)];
    [assumption|]. now apply Hnil.
Qed.

Lemma Start_nil_sends_no_POST_witness :
  exists e' w' evs,
    FixedHost.Start (Scenario.booting 2 []) 5 zeroEmulator (Scenario.boot ∅)
    = Ret None e' w' /\
    log w' = [] ++ evs /\
    existsb isPost evs = false.
Proof.
  eexists _, _, _.
  split; [vm_compute; reflexivity|].
  split; [vm_compute; reflexivity|].
  eapply (Start_nil_sends_no_POST (Scenario.booting 2 []) 5 zeroEmulator
            (Scenario.boot ∅)).
  - right. vm_compute. reflexivity.
  - vm_compute. reflexivity.
Defined.

(** X8. An adopted instance is never shut down: when [Start] on a handle
    that owns nothing returns without having started a command, a [Close] on
    the resulting handle, whatever the outside, returns nil and does nothing
    at all. *)
Theorem adopted_instance_is_not_closed
  (out out2 : Outside) (fuel : nat) (e : Emulator) (w : World)
  (r : option error) (e' : Emulator) (w' : World) (evs : list Event) :
  EnvInit.Start out fuel e w = Ret r e' w' \/
  FixedHost.Start out fuel e w = Ret r e' w' ->
  log w' = log w ++ evs ->
  stopOnClose e = false ->
  existsb isSpawn evs = false ->
  Close out2 e' w' = Ret None e' w'.
Proof.
  intros Hrun Hlog Hnot Hquiet.
  destruct (Start_shape out _ _ _ _ _ _ Hrun) as (evs' & Hlog' & Hshape).
  rewrite Hlog in Hlog'. apply app_inv_head in Hlog'. subst evs'.
  apply Close_not_owned_run.
  destruct Hshape as [(_ & _ & Hown & _)
                     | (d & args & err & rest & -> & _)].
  - congruence.
  - rewrite existsb_app in Hquiet. cbn in Hquiet.
    rewrite orb_true_r in Hquiet. discriminate.
Qed.

Lemma adopted_instance_is_not_closed_witness :
  exists r e' w',
    FixedHost.Start Scenario.listening 0 zeroEmulator
      (Scenario.boot Scenario.exported) = Ret r e' w' /\
    Close Scenario.listening e' w' = Ret None e' w'.
Proof.
  eexists _, _, _.
  split; [vm_compute; reflexivity|].
  eapply (adopted_instance_is_not_closed Scenario.listening
            Scenario.listening 0 zeroEmulator
            (Scenario.boot Scenario.exported)).
  - right. vm_compute. reflexivity.
  - vm_compute. reflexivity.
  - reflexivity.
  - reflexivity.
Defined.

(** X9. [Close] does not restore what [Start] overwrote: after a run of
    [Start] that leaves the handle owned, a [Close] returns with
    DATASTORE_EMULATOR_HOST and DATASTORE_PROJECT_ID unset, whatever they
    held before [Start], and with every other variable as it was before
    [Start]. *)
Theorem Start_then_Close_unsets_published
  (out out2 : Outside) (fuel : nat) (e : Emulator) (w : World)
  (r : option error) (e' : Emulator) (w' : World) :
  EnvInit.Start out fuel e w = Ret r e' w' \/
  FixedHost.Start out fuel e w = Ret r e' w' ->
  stopOnClose e' = true ->
  exists r2 w'',
    Close out2 e' w' = Ret r2 e' w'' /\
    environ w'' !! "DATASTORE_EMULATOR_HOST" = None /\
    environ w'' !! "DATASTORE_PROJECT_ID" = None /\
    forall k, ~ published k -> environ w'' !! k = environ w !! k.
Proof.
  intros Hrun Howned.
  assert (Hframe : forall k, ~ published k ->
                     environ w' !! k = environ w !! k).
  { destruct Hrun as [Hrun | Hrun].
    - now destruct (EnvInit_Start_run _ _ _ _ _ _ _ Hrun).
    - now destruct (FixedHost_Start_run _ _ _ _ _ _ _ Hrun). }
  destruct (Close_owned_run out2 e' w' Howned)
    as (r2 & w'' & rest & Hclose & Henv & _).
  exists r2, w''. split; [assumption|]. rewrite Henv.
  destruct (unset_both (environ w')) as [H1 H2].
  split; [assumption|]. split; [assumption|].
  intros k Hk. now rewrite unset_frame, Hframe.
Qed.

Lemma Start_then_Close_unsets_published_witness :
  exists r e' w',
    FixedHost.Start (Scenario.booting 2 []) 5 zeroEmulator
      (Scenario.boot (<["DATASTORE_PROJECT_ID" := "mine"]> ∅))
    = Ret r e' w' /\
    exists r2 w'',
      Close (Scenario.booting 2 []) e' w' = Ret r2 e' w'' /\
      environ w'' !! "DATASTORE_EMULATOR_HOST" = None /\
      environ w'' !! "DATASTORE_PROJECT_ID" = None /\
      forall k, ~ published k ->
        environ w'' !! k
        = environ (Scenario.boot (<["DATASTORE_PROJECT_ID" := "mine"]> ∅))
            !! k.
Proof.
  eexists _, _, _.
  split; [vm_compute; reflexivity|].
  eapply (Start_then_Close_unsets_published
            (Scenario.booting 2 []) (Scenario.booting 2 []) 5 zeroEmulator
            (Scenario.boot (<["DATASTORE_PROJECT_ID" := "mine"]> ∅))).
  - right. vm_compute. reflexivity.
  - reflexivity.
Defined.

(** ** More on the polling loop *)

Section Polls.

Variable out : Outside.
Variable timeout : Z.

Lemma isHealthy_later e w :
  requestsTakeTime out ->
  exists healthy w',
    isHealthy out e w = Ret healthy e w' /\
    clock w <= clock w' /\ (nreq w' <= S (nreq w))%nat /\ nsel w' = nsel w.
Proof.
  intros Htime.
  destruct (answers200 out (nreq w) MethodGet (Host e +:+ healthcheckEndpoint))
    eqn:Hprobe.
  - rewrite (isHealthy_true _ _ _ Hprobe). eexists _, _.
    split; [reflexivity|]. cbn.
    specialize (Htime (nreq w) MethodGet (Host e +:+ healthcheckEndpoint)).
    repeat split; lia.
  - destruct (isHealthy_false _ _ _ Hprobe) as (w' & -> & [-> | [_ ->]]);
      eexists _, _; (split; [reflexivity|]); cbn.
    + repeat split; lia.
    + specialize (Htime (nreq w) MethodGet (Host e +:+ healthcheckEndpoint)).
      repeat split; lia.
Qed.

(** A tick is never taken before the first tick of the ticker. *)
Lemma select_tick_time t0 (buffered : bool) e w w1 :
  select out timeout t0 buffered e w = Ret CaseTick e w1 ->
  t0 <= clock w -> (buffered = true -> t0 + pollingRate <= clock w) ->
  t0 + pollingRate <= clock w1.
Proof.
  unfold select, contested. intros H Hc Hb.
  destruct buffered.
  - specialize (Hb eq_refl).
    destruct (t0 + timeout <=? clock w); [destruct (selectTick out _)|];
      inversion H; subst; cbn; lia.
  - clear Hb. destruct (t0 + timeout <=? clock w) eqn:Hd; [discriminate|].
    destruct (nextTick t0 (clock w) <? t0 + timeout) eqn:Hlt.
    + inversion H; subst. cbn. ticks.
    + destruct (t0 + timeout <? nextTick t0 (clock w)) eqn:Hgt;
        [discriminate|].
      destruct (selectTick out _); inversion H; subst. cbn. ticks.
Qed.

Lemma poll_not_before_first_tick fuel :
  forall (t0 : Z) (buffered : bool) e w e' w',
    requestsTakeTime out ->
    t0 <= clock w -> (buffered = true -> t0 + pollingRate <= clock w) ->
    poll out timeout fuel t0 buffered e w = Ret None e' w' ->
    t0 + pollingRate <= clock w'.
Proof.
  induction fuel as [|fuel IH];
    intros t0 buffered e w e' w' Htime Hc Hb Hrun; [discriminate|].
  destruct (select_run out timeout t0 buffered e w)
    as (c & w1 & Hsel & _).
  destruct c.
  - pose proof (select_tick_time _ _ _ _ _ Hsel Hc Hb) as Hclock1.
    destruct (isHealthy_later e (emit EvTick w1) Htime)
      as (healthy & w2 & Hh & Hclock2 & _). cbn in Hclock2.
    destruct healthy.
    + rewrite (poll_tick_healthy _ _ _ _ _ _ _ _ _ Hsel Hh) in Hrun.
      inversion Hrun; subst. lia.
    + rewrite (poll_tick_unhealthy _ _ _ _ _ _ _ _ _ Hsel Hh) in Hrun.
      apply IH in Hrun; try assumption; try lia.
      rewrite pollingRate_ns in *. lia.
  - rewrite (poll_done _ _ _ _ _ _ _ _ Hsel) in Hrun. discriminate.
Qed.

End Polls.

(** X10. Confirmation is never faster than one polling interval: the first
    probe waits for the first tick, so when [confirmStartup] returns nil at
    least 200 ms have passed since the call, however early the emulator was
    ready. *)
Theorem confirmStartup_takes_a_polling_interval
  (out : Outside) (timeout : Z) (fuel : nat) (e : Emulator) (w : World)
  (e' : Emulator) (w' : World) :
  requestsTakeTime out ->
  confirmStartup out timeout fuel e w = Ret None e' w' ->
  clock w + pollingRate <= clock w' /\
  clock w + 200 * time.Millisecond <= clock w'.
Proof.
  intros Htime Hrun. unfold confirmStartup, bind, now in Hrun.
  apply poll_not_before_first_tick in Hrun; try assumption; try lia;
    try discriminate.
  split; [assumption|]. exact Hrun.
Qed.

Lemma confirmStartup_takes_a_polling_interval_witness :
  exists e' w',
    confirmStartup (Scenario.booting 0 []) EnvInit.timeout 3
      Scenario.launched (Scenario.boot ∅) = Ret None e' w' /\
    clock (Scenario.boot ∅) + pollingRate <= clock w' /\
    clock (Scenario.boot ∅) + 200 * time.Millisecond <= clock w'.
Proof.
  eexists _, _. split; [vm_compute; reflexivity|].
  eapply (confirmStartup_takes_a_polling_interval (Scenario.booting 0 [])
            EnvInit.timeout 3 Scenario.launched (Scenario.boot ∅)).
  - intros n method url. vm_compute. discriminate.
  - vm_compute. reflexivity.
Defined.

(** X11. [confirmStartup] only polls: a run that returns has left the
    handle, the environment and the count of commands as they were; all it
    did was take ticks, send GET requests and, at most, take the deadline.
    It returns nil only after a GET answered with 200, and the only error it
    returns is the deadline error. *)
Theorem confirmStartup_only_polls
  (out : Outside) (timeout : Z) (fuel : nat) (e : Emulator) (w : World)
  (r : option error) (e' : Emulator) (w' : World) :
  confirmStartup out timeout fuel e w = Ret r e' w' ->
  e' = e /\ environ w' = environ w /\ nexec w' = nexec w /\
  exists evs,
    log w' = log w ++ evs /\
    forallb isPollEvent evs = true /\
    existsb isPost evs = false /\ existsb isSetenv evs = false /\
    existsb isSpawn evs = false /\
    (r = None -> existsb isHealthyProbe evs = true) /\
    (forall err, r = Some err -> err = DeadlineExceeded /\ In EvDone evs).
Proof.
  intros Hrun.
  destruct (confirmStartup_run _ _ _ _ _ _ _ _ Hrun)
    as (He & Henv & Hexec & evs & Hlog & Hpoll & Hr).
  split; [assumption|]. split; [assumption|]. split; [assumption|].
  exists evs. destruct (pollEvents_quiet evs Hpoll) as (Hs & Hsp & Hp).
  repeat (split; [assumption|]). split.
  - intros ->. exact Hr.
  - intros err ->. destruct Hr as (-> & Hin & _). now split.
Qed.

Lemma confirmStartup_only_polls_witness :
  exists r e' w',
    confirmStartup (Scenario.booting 1 []) EnvInit.timeout 3
      Scenario.launched (Scenario.boot Scenario.exported) = Ret r e' w' /\
    e' = Scenario.launched /\ environ w' = Scenario.exported /\
    nexec w' = 0%nat.
Proof.
  eexists _, _, _. split; [vm_compute; reflexivity|].
  edestruct (confirmStartup_only_polls (Scenario.booting 1 [])
               EnvInit.timeout 3 Scenario.launched
               (Scenario.boot Scenario.exported))
    as (He & Henv & Hexec & _).
  - vm_compute. reflexivity.
  - split; [exact He|]. split; [exact Henv | exact Hexec].
Defined.

(** ** When env-init fails *)

Lemma initEnv_failed (out : Outside) e w err e' w' :
  EnvInit.initEnv out e w = Ret (Some err) e' w' ->
  e' = e /\ environ w' = environ w /\ nreq w' = nreq w /\
  log w' = log w ++ [EvRun (command ["env-init"])].
Proof.
  unfold EnvInit.initEnv, bind at 1, cmd_Run. intros H.
  destruct (cmdRun out (nexec w) _) as [err' | lines scanErr].
  - now inversion H.
  - unfold bind at 1 in H.
    destruct (EnvInit.scanLines lines ∅ e _) as [env e1 w1| |] eqn:Hscan;
      try discriminate.
    apply scanLines_pure in Hscan as [-> ->].
    destruct scanErr as [err'|]; [now inversion H|].
    unfold bind, setHost, setProjectID, os.Setenv, ret in H.
    destruct (os.validSetenv "DATASTORE_EMULATOR_HOST" _);
      destruct (os.validSetenv "DATASTORE_PROJECT_ID" _); discriminate.
Qed.

(** X12. emulator.go, when [env-init] fails after the command was started
    (the command cannot run, or the scanner stops on an error): [Start]
    returns that error after running [Close] on the owned handle, whose
    [Host] and [ProjectID] are still the ones [Start] was called with.  Both
    published variables are unset, and a shutdown request is sent only if
    that old [Host] answers a health probe with 200, so for a fresh handle
    the command just started is left running. *)
Theorem Start_initEnv_failure_runs_Close
  (out : Outside) (fuel : nat) (e e2 : Emulator) (w w1 w2 : World)
  (err : error) :
  EnvInit.instanceIsPresent out e w = Ret false e w1 ->
  cmdStart out (nexec w1) EnvInit.startArgs = None ->
  EnvInit.initEnv out (owned e) (spawned EnvInit.startArgs w1)
  = Ret (Some err) e2 w2 ->
  e2 = owned e /\
  exists r w3 rest,
    Close out (owned e) w2 = Ret r (owned e) w3 /\
    EnvInit.Start out fuel e w = Ret (Some err) (owned e) w3 /\
    environ w3 = delete "DATASTORE_PROJECT_ID"
                   (delete "DATASTORE_EMULATOR_HOST" (environ w)) /\
    log w3 = log w1 ++ EvStart EnvInit.startArgs None
               :: EvRun (command ["env-init"])
               :: EvUnsetenv "DATASTORE_EMULATOR_HOST"
               :: EvUnsetenv "DATASTORE_PROJECT_ID" :: rest /\
    (existsb isPost rest = true ->
     answers200 out (nreq w1) MethodGet (Host e +:+ healthcheckEndpoint)
     = true).
Proof.
  intros Hpresent Hspawn Hinit.
  destruct (initEnv_failed _ _ _ _ _ _ Hinit) as (-> & Henv2 & Hreq2 & Hlog2).
  split; [reflexivity|].
  destruct (EnvInit_instanceIsPresent_run out e w)
    as (p & e1 & w1' & d & Hp & _ & Henv1 & _).
  rewrite Hpresent in Hp. inversion Hp; subst p e1 w1'. clear Hp.
  destruct (Close_after_failure out (owned e) w2 err eq_refl)
    as (r & w3 & rest & Hclose & Hseq & Henv3 & Hlog3 & _ & _ & Hpost).
  exists r, w3, rest. split; [assumption|]. split.
  - unfold EnvInit.Start, bind at 1. rewrite Hpresent.
    unfold bind at 1, setStopOnClose at 1.
    unfold bind at 1, cmd_Start at 1. rewrite Hspawn.
    unfold bind at 1. fold (owned e). fold (spawned EnvInit.startArgs w1).
    rewrite Hinit. exact Hseq.
  - rewrite Henv3, Henv2, Hlog3, Hlog2. cbn. rewrite Henv1, <- !app_assoc.
    split; [reflexivity|]. split; [reflexivity|].
    intros Hp. apply Hpost in Hp. now rewrite Hreq2 in Hp.
Qed.

Lemma Start_initEnv_failure_runs_Close_witness :
  exists r w3 rest,
    Close Scenario.envInitFails (owned zeroEmulator)
      (emit (EvRun (command ["env-init"]))
         (nextExec (spawned EnvInit.startArgs (Scenario.boot ∅))))
    = Ret r (owned zeroEmulator) w3 /\
    EnvInit.Start Scenario.envInitFails 0 zeroEmulator (Scenario.boot ∅)
    = Ret (Some (ExecError 1)) (owned zeroEmulator) w3 /\
    environ w3 = delete "DATASTORE_PROJECT_ID"
                   (delete "DATASTORE_EMULATOR_HOST"
                      (environ (Scenario.boot ∅))) /\
    log w3 = log (Scenario.boot ∅) ++ EvStart EnvInit.startArgs None
               :: EvRun (command ["env-init"])
               :: EvUnsetenv "DATASTORE_EMULATOR_HOST"
               :: EvUnsetenv "DATASTORE_PROJECT_ID" :: rest /\
    (existsb isPost rest = true ->
     answers200 Scenario.envInitFails (nreq (Scenario.boot ∅)) MethodGet
       (Host zeroEmulator +:+ healthcheckEndpoint) = true).
Proof.
  destruct (Start_initEnv_failure_runs_Close Scenario.envInitFails 0
              zeroEmulator (owned zeroEmulator)
              (Scenario.boot ∅) (Scenario.boot ∅)
              (emit (EvRun (command ["env-init"]))
                 (nextExec (spawned EnvInit.startArgs (Scenario.boot ∅))))
              (ExecError 1)) as [_ H].
  - reflexivity.
  - reflexivity.
  - reflexivity.
  - exact H.
Defined.

(** ** Discovery in part_000 *)

(** X13. part_000 adopts exactly when DATASTORE_HOST and
    DATASTORE_PROJECT_ID are both non-empty and a GET of [e.Host + host] is
    answered with 200, where [host] is the value of DATASTORE_HOST: for a
    fresh handle this is the address of the environment itself, for a handle
    whose [Host] is already set it is the two addresses joined.  On adoption
    [Host] and [ProjectID] become the two values and ownership is kept; with
    no adoption the handle is unchanged. *)
Theorem FixedHost_adopts_iff (out : Outside) (e : Emulator) (w : World) :
  exists present e' w',
    FixedHost.instanceIsPresent out e w = Ret present e' w' /\
    (present = true <->
     os.lookupEnv w "DATASTORE_HOST" <> "" /\
     os.lookupEnv w "DATASTORE_PROJECT_ID" <> "" /\
     answers200 out (nreq w) MethodGet
       (Host e +:+ os.lookupEnv w "DATASTORE_HOST") = true) /\
    (present = true ->
     e' = mkEmulator (os.lookupEnv w "DATASTORE_HOST")
            (os.lookupEnv w "DATASTORE_PROJECT_ID") (stopOnClose e)) /\
    (present = false -> e' = e) /\
    Host zeroEmulator +:+ os.lookupEnv w "DATASTORE_HOST"
    = os.lookupEnv w "DATASTORE_HOST".
Proof.
  unfold FixedHost.instanceIsPresent, bind at 1, os.Getenv at 1.
  destruct (String.eqb _ _) eqn:Hhost.
  { apply String.eqb_eq in Hhost. exists false, e, w.
    split; [reflexivity|]. split; [|now repeat split].
    split; [discriminate|]. now intros (H & _). }
  unfold bind at 1, os.Getenv at 1.
  destruct (String.eqb (os.lookupEnv w "DATASTORE_PROJECT_ID") _) eqn:Hproj.
  { apply String.eqb_eq in Hproj. exists false, e, w.
    split; [reflexivity|]. split; [|now repeat split].
    split; [discriminate|]. now intros (_ & H & _). }
  apply String.eqb_neq in Hhost, Hproj. unfold bind at 1.
  destruct (answers200 out (nreq w) MethodGet
              (Host e +:+ os.lookupEnv w "DATASTORE_HOST")) eqn:Hprobe.
  - rewrite (request_ok _ _ _ _ _ Hprobe). cbn. eexists true, _, _.
    split; [reflexivity|]. now repeat split.
  - destruct (request_failed _ _ _ _ _ Hprobe) as (err & w' & -> & _).
    exists false, e, w'. split; [reflexivity|]. split; [|now repeat split].
    split; [discriminate|]. now intros (_ & _ & H).
Qed.

Lemma FixedHost_adopts_iff_witness :
  exists present e' w',
    FixedHost.instanceIsPresent Scenario.listening zeroEmulator
      (Scenario.boot Scenario.exported) = Ret present e' w' /\
    present = true /\
    e' = mkEmulator Scenario.emulatorURL "demo" false.
Proof.
  destruct (FixedHost_adopts_iff Scenario.listening zeroEmulator
              (Scenario.boot Scenario.exported))
    as (present & e' & w' & Hrun & Hiff & Hyes & _).
  assert (Hp : present = true).
  { apply Hiff. split; [discriminate|]. split; [discriminate|]. reflexivity. }
  exists present, e', w'. split; [exact Hrun|]. split; [exact Hp|].
  exact (Hyes Hp).
Defined.

(** ** Closing again, and resetting *)

(** X14. [Close] does not mark the handle as closed: it stays owned, so a
    second [Close] unsets the two variables again, which changes nothing in
    the environment, and probes the instance again (and would send another
    shutdown request if the probe were answered with 200). *)
Theorem Close_twice (out : Outside) (e : Emulator) (w : World) :
  stopOnClose e = true ->
  exists r1 w1 r2 w2 rest,
    Close out e w = Ret r1 e w1 /\
    Close out e w1 = Ret r2 e w2 /\
    environ w2 = environ w1 /\
    log w2 = log w1 ++ EvUnsetenv "DATASTORE_EMULATOR_HOST"
               :: EvUnsetenv "DATASTORE_PROJECT_ID" :: rest /\
    (existsb isPost rest = true ->
     answers200 out (nreq w1) MethodGet (Host e +:+ healthcheckEndpoint)
     = true).
Proof.
  intros Howned.
  destruct (Close_after_failure out e w DeadlineExceeded Howned)
    as (r1 & w1 & rest1 & Hclose1 & _ & Henv1 & _).
  destruct (Close_after_failure out e w1 DeadlineExceeded Howned)
    as (r2 & w2 & rest2 & Hclose2 & _ & Henv2 & Hlog2 & _ & _ & Hpost).
  exists r1, w1, r2, w2, rest2. repeat (split; [assumption|]).
  split; [|split; assumption].
  rewrite Henv2, Henv1. apply map_eq. intros k.
  rewrite !lookup_delete. repeat case_decide; reflexivity.
Qed.

Lemma Close_twice_witness :
  exists r1 w1 r2 w2 rest,
    Close Scenario.listening Scenario.launched
      (Scenario.boot Scenario.exported) = Ret r1 Scenario.launched w1 /\
    Close Scenario.listening Scenario.launched w1
    = Ret r2 Scenario.launched w2 /\
    environ w2 = environ w1 /\
    log w2 = log w1 ++ EvUnsetenv "DATASTORE_EMULATOR_HOST"
               :: EvUnsetenv "DATASTORE_PROJECT_ID" :: rest /\
    (existsb isPost rest = true ->
     answers200 Scenario.listening (nreq w1) MethodGet
       (Host Scenario.launched +:+ healthcheckEndpoint) = true).
Proof.
  apply (Close_twice Scenario.listening Scenario.launched
           (Scenario.boot Scenario.exported)).
  reflexivity.
Defined.

(** X15. [Reset] sends one POST to [e.Host + "/reset"], for an owned handle
    and for an adopted one alike, and touches neither the handle nor the
    environment.  It returns nil exactly when the answer has status 200; any
    other status, 204 or 201 as well as 500, comes back as a status code
    error carrying that status. *)
Theorem Reset_result (out : Outside) (e : Emulator) (w : World) :
  exists r w',
    Reset out e w = Ret r e w' /\
    environ w' = environ w /\ nexec w' = nexec w /\
    (r = None <->
     answers200 out (nreq w) MethodPost (Host e +:+ resetEndpoint) = true) /\
    match newRequest out MethodPost (Host e +:+ resetEndpoint) with
    | Some err => r = Some err /\ w' = w
    | None =>
        log w' = log w ++
                 [EvRequest MethodPost (Host e +:+ resetEndpoint)
                    (resp (roundTrip out (nreq w) MethodPost
                             (Host e +:+ resetEndpoint)))] /\
        match resp (roundTrip out (nreq w) MethodPost
                      (Host e +:+ resetEndpoint)) with
        | inl err => r = Some err
        | inr code => code <> 200 -> r = Some (StatusCodeError code)
        end
    end.
Proof.
  unfold Reset, request, answers200.
  destruct (newRequest out MethodPost (Host e +:+ resetEndpoint)) as [err|].
  { eexists _, _. split; [reflexivity|]. repeat split; discriminate. }
  destruct (resp _) as [err|code] eqn:Hresp.
  { eexists _, _. split; [reflexivity|]. repeat split; try discriminate. }
  destruct (code =? 200) eqn:Hcode.
  - eexists _, _. split; [reflexivity|]. repeat split.
    intros Hne. apply Z.eqb_eq in Hcode. contradiction.
  - eexists _, _. split; [reflexivity|]. repeat split; discriminate.
Qed.

(** ** How many probes *)

(** X16. When every request is back in less than one polling interval,
    [confirmStartup] sends at most one probe per tick up to the deadline,
    whatever [select] picks when a tick falls on the deadline: at most 25
    with the 5 s of emulator.go and at most 150 with the 30 s of
    part_000. *)
Theorem confirmStartup_probe_bound
  (out : Outside) (fuel : nat) (e : Emulator) (w : World)
  (r : option error) (e' : Emulator) (w' : World) :
  fasterThanTick out ->
  (confirmStartup out EnvInit.timeout fuel e w = Ret r e' w' ->
   (nreq w' <= nreq w + 25)%nat) /\
  (confirmStartup out FixedHost.timeout fuel e w = Ret r e' w' ->
   (nreq w' <= nreq w + 150)%nat).
Proof.
  intros Hfast. unfold confirmStartup, bind, now.
  split; intros Hrun;
    apply poll_fast_run in Hrun as [Hreq _]; try assumption;
    try (vm_compute; discriminate);
    try (rewrite pollingRate_ns; lia);
    vm_compute Z.to_nat in Hreq; lia.
Qed.

Lemma confirmStartup_probe_bound_witness :
  exists r e' w',
    confirmStartup (Scenario.eager []) EnvInit.timeout 30
      Scenario.launched (Scenario.boot ∅) = Ret r e' w' /\
    nreq w' = 25%nat /\
    (nreq w' <= nreq (Scenario.boot ∅) + 25)%nat.
Proof.
  assert (Hfast : fasterThanTick (Scenario.eager []))
    by (intros n method url; vm_compute; split; [discriminate | reflexivity]).
  eexists _, _, _. split; [vm_compute; reflexivity|].
  split; [reflexivity|].
  eapply (proj1 (confirmStartup_probe_bound (Scenario.eager []) 30
                   Scenario.launched (Scenario.boot ∅) _ _ _ Hfast)).
  vm_compute. reflexivity.
Defined.

Lemma Reset_result_witness :
  exists r w',
    Reset Scenario.listening (mkEmulator Scenario.emulatorURL "demo" false)
      (Scenario.boot Scenario.exported)
    = Ret r (mkEmulator Scenario.emulatorURL "demo" false) w' /\
    r = None /\ environ w' = Scenario.exported.
Proof.
  destruct (Reset_result Scenario.listening
              (mkEmulator Scenario.emulatorURL "demo" false)
              (Scenario.boot Scenario.exported))
    as (r & w' & Hrun & Henv & _ & Hiff & _).
  exists r, w'. split; [exact Hrun|]. split; [|exact Henv].
  apply Hiff. reflexivity.
Defined.
